(** * Reporting, export and registration views of the blog application

    A shallow embedding of [blog/views/views.py] and [blog/views/auth.py].
    Database tables are lists of rows in database-default order, an ORM
    query is the list function its SQL denotes, a view is a function from
    the store and the request to an outcome (a response or a raised
    exception) and, where the view writes, a new store. *)

From Stdlib Require Import ZArith QArith String Ascii Bool Lia.
From stdpp Require Import base option list gmap strings pretty.

Local Open Scope string_scope.
Local Open Scope Z_scope.

(** ** Python values and builtins used by the views *)

Module Py.

(** What a view reads from a query string or passes as a page number. *)
Inductive pyval :=
| PyNone
| PyInt (n : Z)
| PyStr (s : string).

(** Truthiness, as in [if search_query:] and [a or b]. *)
Definition truthy (v : pyval) : bool :=
  match v with
  | PyNone => false
  | PyInt n => negb (n =? 0)
  | PyStr s => negb (String.eqb s "")
  end.

Definition py_or (a b : pyval) : pyval := if truthy a then a else b.

(** [v == 'text']. *)
Definition str_eq (v : pyval) (s : string) : bool :=
  match v with
  | PyStr t => String.eqb t s
  | _ => false
  end.

(** [QueryDict]: the pairs of the query string in order; [get] gives the
    last value of a repeated key and the default when the key is absent. *)
Definition QueryDict := list (string * string).

Fixpoint QueryDict_get (q : QueryDict) (key : string) (default : pyval) : pyval :=
  match q with
  | [] => default
  | (k, v) :: q' =>
      match QueryDict_get q' key PyNone with
      | PyNone => if String.eqb k key then PyStr v else default
      | found => found
      end
  end.

(** [str.lower] on ASCII letters; other bytes are left alone. *)
Definition lower_ascii (c : ascii) : ascii :=
  let n := nat_of_ascii c in
  if (65 <=? n)%nat && (n <=? 90)%nat then ascii_of_nat (n + 32) else c.

Fixpoint lower (s : string) : string :=
  match s with
  | EmptyString => EmptyString
  | String c s' => String (lower_ascii c) (lower s')
  end.

Fixpoint startswith (s p : string) {struct p} : bool :=
  match p, s with
  | EmptyString, _ => true
  | String a p', String b s' => Ascii.eqb a b && startswith s' p'
  | String _ _, EmptyString => false
  end.

(** [needle in hay] on strings. *)
Fixpoint contains (hay needle : string) : bool :=
  startswith hay needle ||
  match hay with
  | EmptyString => false
  | String _ hay' => contains hay' needle
  end.

(** [int(s)] on a text of ASCII characters: surrounding whitespace is
    stripped, one sign is allowed, the digits may be grouped by single
    underscores. [None] stands for the [ValueError]. The builtin reads
    more than this reading does, the decimal digits and blanks of other
    scripts, and less, refusing a run of more than 4300 digits; on an
    ASCII text within that length the two agree. The views that hand a
    text of the request to [int] are therefore also given for every
    reading of texts ([int_with] and the definitions named [_with]). *)
Definition is_space (c : ascii) : bool :=
  let n := nat_of_ascii c in
  (n =? 32)%nat || ((9 <=? n)%nat && (n <=? 13)%nat)
  || ((28 <=? n)%nat && (n <=? 31)%nat).

Definition digit_val (c : ascii) : option Z :=
  let n := nat_of_ascii c in
  if (48 <=? n)%nat && (n <=? 57)%nat then Some (Z.of_nat (n - 48)) else None.

Fixpoint lstrip (s : list ascii) : list ascii :=
  match s with
  | c :: s' => if is_space c then lstrip s' else s
  | [] => []
  end.

Definition strip (s : list ascii) : list ascii :=
  rev (lstrip (rev (lstrip s))).

Fixpoint digits (acc : Z) (after_digit : bool) (s : list ascii) : option Z :=
  match s with
  | [] => if after_digit then Some acc else None
  | c :: s' =>
      match digit_val c with
      | Some d => digits (10 * acc + d) true s'
      | None =>
          if Ascii.eqb c "_" && after_digit then digits acc false s' else None
      end
  end.

Definition int_of_str (s : string) : option Z :=
  match strip (list_ascii_of_string s) with
  | "+"%char :: r => digits 0 false r
  | "-"%char :: r => Z.opp <$> digits 0 false r
  | r => digits 0 false r
  end.

(** [int(v)]: [None] stands for [TypeError] (on [None]) or [ValueError]. *)
Definition int (v : pyval) : option Z :=
  match v with
  | PyNone => None
  | PyInt n => Some n
  | PyStr s => int_of_str s
  end.

(** [int(v)] where [read] is what the builtin makes of a text. *)
Definition int_with (read : string -> option Z) (v : pyval) : option Z :=
  match v with
  | PyNone => None
  | PyInt n => Some n
  | PyStr s => read s
  end.

End Py.

Import Py.

(** ** The tables *)

Module Models.

(** Modelled from the spec: [blog/models.py] is not among the sources. The
    rows carry the columns the views read. [price] is a decimal column,
    held as its unscaled integer at the column's fixed scale (10.00 is
    1000 at scale 2), so sums and products of prices are exact. *)
Record Product := {
  product_id : Z;
  product_slug : string;
  product_price : Z;
  product_quantity : Z
}.

Record Customer := {
  customer_id : Z;
  customer_name : string;
  customer_email : string;
  customer_phone : string;
  customer_billing_address : string
}.

(** An order row holds two foreign keys and a quantity: no price and no
    revenue column. *)
Record Order := {
  order_id : Z;
  order_customer_id : Z;
  order_product_id : Z;
  order_quantity : Z
}.

(** A snapshot of the database; each table in database-default order. *)
Record Database := {
  products : list Product;
  customers : list Customer;
  orders : list Order
}.

(** Integrity the database engine enforces: primary keys are unique and
    every order points at an existing customer and product. *)
Definition unique_keys (ids : list Z) : bool := bool_decide (NoDup ids).

Definition db_ok (db : Database) : bool :=
  unique_keys (product_id <$> products db) &&
  unique_keys (customer_id <$> customers db) &&
  forallb (fun o =>
    existsb (fun p => product_id p =? order_product_id o) (products db) &&
    existsb (fun c => customer_id c =? order_customer_id o) (customers db))
    (orders db).

End Models.

Import Models.

(** ** The queries the views build *)

Module ORM.

(** SQL expressions over nullable columns. *)
Definition sql_mul (a b : option Z) : option Z :=
  match a, b with
  | Some x, Some y => Some (x * y)
  | _, _ => None
  end.

(** [SUM]: NULL inputs are skipped; the sum of no value is NULL. *)
Fixpoint sql_sum (col : list (option Z)) : option Z :=
  match col with
  | [] => None
  | None :: col' => sql_sum col'
  | Some x :: col' =>
      match sql_sum col' with
      | None => Some x
      | Some s => Some (x + s)
      end
  end.

(** [AVG] of a non-nullable column: NULL on no row, else the mean as the
    database engine computes it, [mean], which is the exact mean rounded
    to the engine's precision. *)
Definition sql_avg (mean : list Z -> Q) (col : list Z) : option Q :=
  match col with
  | [] => None
  | _ => Some (mean col)
  end.

(** [a LEFT OUTER JOIN b ON on]: an unmatched left row is kept once, with
    NULL for the right columns. *)
Definition left_join {A B} (on : A -> B -> bool) (b : list B) (a : A)
  : list (A * option B) :=
  match filter (fun y => on a y) b with
  | [] => [(a, None)]
  | ys => (fun y => (a, Some y)) <$> ys
  end.

Definition inner_join {A B} (on : A -> B -> bool) (b : list B) (a : A)
  : list (A * B) :=
  (fun y => (a, y)) <$> filter (fun y => on a y) b.

Definition order_of_customer (c : Customer) (o : Order) : bool :=
  order_customer_id o =? customer_id c.

Definition product_of_order (o : Order) (p : Product) : bool :=
  order_product_id o =? product_id p.

(** The rows of
    [customer LEFT OUTER JOIN order LEFT OUTER JOIN product]
    in the group of customer [c], as the columns
    [(order.quantity, product.price)]. *)
Definition revenue_rows (db : Database) (c : Customer)
  : list (option Z * option Z) :=
  left_join order_of_customer (orders db) c ≫=
  fun co : Customer * option Order =>
    match co.2 with
    | None => [(None, None)]
    | Some o =>
        (fun op : Order * option Product =>
           (Some (order_quantity o), product_price <$> op.2))
          <$> left_join product_of_order (products db) o
    end.

(** [Sum(F('order__quantity') * F('order__product__price'))] for the
    group of [c]. *)
Definition sum_revenue (db : Database) (c : Customer) : option Z :=
  sql_sum ((fun r => sql_mul r.1 r.2) <$> revenue_rows db c).

(** A row of [Customer.objects.annotate(total_revenue=...)]. *)
Record Annotated := {
  customer : Customer;
  total_revenue : option Z
}.

(** [queryset.annotate(total_revenue=Sum(...))]: grouped by the customer
    key, so one row per customer of the queryset, in its order. *)
Definition annotate (db : Database) (qs : list Customer) : list Annotated :=
  (fun c => {| customer := c; total_revenue := sum_revenue db c |}) <$> qs.

(** [Order.objects.filter(customer=c)]. *)
Definition orders_of (db : Database) (c : Customer) : list Order :=
  filter (fun o => order_of_customer c o) (orders db).

(** [orders.aggregate(total_revenue=Sum(F('quantity') * F('product__price')))]:
    the product is reached through an inner join. *)
Definition aggregate_revenue (db : Database) (os : list Order) : option Z :=
  sql_sum ((fun r : Order * Product =>
              sql_mul (Some (order_quantity r.1)) (Some (product_price r.2)))
           <$> (os ≫= inner_join product_of_order (products db))).

(** [name__icontains=q]: a case-insensitive substring test. *)
Definition icontains (field q : string) : bool :=
  contains (lower field) (lower q).

(** [Q(name__icontains=q) | Q(email__icontains=q)]. *)
Definition search_match (q : string) (c : Customer) : bool :=
  icontains (customer_name c) q || icontains (customer_email c) q.

(** [Model.objects.get(...)]: the single matching row; no match is
    [DoesNotExist], more than one is [MultipleObjectsReturned]. *)
Inductive Lookup (A : Type) :=
| Found (row : A)
| NotFound
| Several.
Arguments Found {A}.
Arguments NotFound {A}.
Arguments Several {A}.

Definition get {A} (test : A -> bool) (table : list A) : Lookup A :=
  match filter (fun x => test x) table with
  | [] => NotFound
  | [row] => Found row
  | _ => Several
  end.

End ORM.

Import ORM.

(** ** [django.core.paginator] *)

Module Paginator.

Record Paginator (A : Type) := {
  object_list : list A;
  per_page : Z;
  orphans : Z;
  allow_empty_first_page : bool
}.
Arguments object_list {A}.
Arguments per_page {A}.
Arguments orphans {A}.
Arguments allow_empty_first_page {A}.

(** [Paginator(object_list, per_page)] with the default keyword values. *)
Definition make {A} (l : list A) (n : Z) : Paginator A :=
  {| object_list := l; per_page := n; orphans := 0;
     allow_empty_first_page := true |}.

Definition count {A} (p : Paginator A) : Z := Z.of_nat (length (object_list p)).

(** [ceil(a / b)]. *)
Definition ceil_div (a b : Z) : Z := - ((- a) / b).

Definition num_pages {A} (p : Paginator A) : Z :=
  if (count p =? 0) && negb (allow_empty_first_page p) then 0
  else ceil_div (Z.max 1 (count p - orphans p)) (per_page p).

Inductive InvalidPage := PageNotAnInteger | EmptyPage.

Definition validate_number {A} (p : Paginator A) (number : pyval)
  : InvalidPage + Z :=
  match int number with
  | None => inl PageNotAnInteger
  | Some n =>
      if n <? 1 then inl EmptyPage
      else if n >? num_pages p then inl EmptyPage
      else inr n
  end.

Record Page (A : Type) := {
  page_objects : list A;
  number : Z;
  paginator : Paginator A
}.
Arguments page_objects {A}.
Arguments number {A}.
Arguments paginator {A}.

(** [l[bottom:top]] for indices that are not negative. *)
Definition slice {A} (l : list A) (bottom top : Z) : list A :=
  take (Z.to_nat top - Z.to_nat bottom) (drop (Z.to_nat bottom) l).

Definition page {A} (p : Paginator A) (number : pyval) : InvalidPage + Page A :=
  match validate_number p number with
  | inl e => inl e
  | inr n =>
      let bottom := (n - 1) * per_page p in
      let top := bottom + per_page p in
      let top := if top + orphans p >=? count p then count p else top in
      inr {| page_objects := slice (object_list p) bottom top;
             number := n; paginator := p |}
  end.

(** [get_page]: a number that is not an integer gives the first page, a
    number out of range gives the last page. *)
Definition get_page {A} (p : Paginator A) (number : pyval) : InvalidPage + Page A :=
  let number :=
    match validate_number p number with
    | inr n => n
    | inl PageNotAnInteger => 1
    | inl EmptyPage => num_pages p
    end in
  page p (PyInt number).

(** The same three methods for any reading of texts. *)
Definition validate_number_with {A} (read : string -> option Z)
  (p : Paginator A) (number : pyval) : InvalidPage + Z :=
  match int_with read number with
  | None => inl PageNotAnInteger
  | Some n =>
      if n <? 1 then inl EmptyPage
      else if n >? num_pages p then inl EmptyPage
      else inr n
  end.

Definition page_with {A} (read : string -> option Z)
  (p : Paginator A) (number : pyval) : InvalidPage + Page A :=
  match validate_number_with read p number with
  | inl e => inl e
  | inr n =>
      let bottom := (n - 1) * per_page p in
      let top := bottom + per_page p in
      let top := if top + orphans p >=? count p then count p else top in
      inr {| page_objects := slice (object_list p) bottom top;
             number := n; paginator := p |}
  end.

Definition get_page_with {A} (read : string -> option Z)
  (p : Paginator A) (number : pyval) : InvalidPage + Page A :=
  let number :=
    match validate_number_with read p number with
    | inr n => n
    | inl PageNotAnInteger => 1
    | inl EmptyPage => num_pages p
    end in
  page_with read p (PyInt number).

Definition has_other_pages {A} (pg : Page A) : bool :=
  (number pg >? 1) || (number pg <? num_pages (paginator pg)).

End Paginator.

Import Paginator.

(** ** Requests, responses and what a view can raise *)

Module Http.

Record HttpRequest := {
  GET : QueryDict;
  POST : QueryDict
}.

(** A value written to an export: [None], an integer, a decimal (unscaled,
    as the price column) or a string. *)
Inductive Cell :=
| CNone
| CInt (n : Z)
| CDec (d : Z)
| CStr (s : string).

(** Values a view puts into a template context. *)
Inductive ctxval :=
| CtxView
| CtxStr (s : string)
| CtxBool (b : bool)
| CtxInt (n : Z)
| CtxSum (total : option Z)
| CtxAvg (mean : option Q)
| CtxProductPage (pg : Page Product)
| CtxProduct (p : Product)
| CtxAttributes (p : Product)
| CtxCustomerPage (pg : Page Annotated)
| CtxCustomerPaginator (p : Paginator Annotated)
| CtxAnnotated (l : list Annotated)
| CtxCustomer (c : Customer)
| CtxProductForm (data : option QueryDict) (instance : option Product)
| CtxCustomerForm (data : option QueryDict) (instance : option Customer)
| CtxForm (data : option QueryDict).

(** What a response carries. The export payloads are the rows handed to
    [csv.writer], [json.dumps] and the worksheet. *)
Inductive Content :=
| Empty
| Text (s : string)
| Template (name : string) (context : gmap string ctxval)
| CsvRows (rows : list (list Cell))
| JsonDump (data : list (list (string * Cell))) (indent : Z)
| Worksheet (title : string) (rows : list (list Cell)).

Record HttpResponse := {
  status_code : Z;
  headers : list (string * string);
  content : Content
}.

(** [render(request, template, context)]. *)
Definition render (template : string) (context : gmap string ctxval) : HttpResponse :=
  {| status_code := 200;
     headers := [("Content-Type", "text/html; charset=utf-8")];
     content := Template template context |}.

(** [redirect(name)]: a 302 to the route of that name. *)
Definition redirect (route : string) : HttpResponse :=
  {| status_code := 302; headers := [("Location", route)]; content := Empty |}.

Inductive Exception :=
| Http404
| DoesNotExist (model : string)
| MultipleObjectsReturned (model : string)
| TypeError
| InvalidPageError (e : InvalidPage)
| SMTPException.

Inductive Outcome (R : Type) :=
| Returns (r : R)
| Raises (e : Exception).
Arguments Returns {R}.
Arguments Raises {R}.

(** The response the handler chain sends: [Http404] becomes the standard
    404 page, any other exception reaching the handler a 500. *)
Definition response_status (o : Outcome HttpResponse) : Z :=
  match o with
  | Returns r => status_code r
  | Raises Http404 => 404
  | Raises _ => 500
  end.

(** [Model.objects.get(...)] in a view that does not catch. *)
Definition get_or_raise {A} (model : string) (test : A -> bool) (table : list A)
  : Outcome A :=
  match get test table with
  | Found row => Returns row
  | NotFound => Raises (DoesNotExist model)
  | Several => Raises (MultipleObjectsReturned model)
  end.

(** [get_object_or_404(Model, ...)]: [DoesNotExist] becomes [Http404]. *)
Definition get_object_or_404 {A} (model : string) (test : A -> bool)
  (table : list A) : Outcome A :=
  match get_or_raise model test table with
  | Raises (DoesNotExist _) => Raises Http404
  | o => o
  end.

Definition bind {A B} (o : Outcome A) (k : A -> Outcome B) : Outcome B :=
  match o with
  | Returns x => k x
  | Raises e => Raises e
  end.

End Http.

Import Http.

Notation "x ←! o ; k" := (Http.bind o (fun x => k))
  (at level 20, o at level 100, k at level 200, right associativity,
   format "x  ←!  o ;  '/' k").

(** ** [blog/views/views.py] *)

Module Views.

(** [Product.objects.all()], [Customer.objects.all()]. *)
Definition all_products (db : Database) : list Product := products db.
Definition all_customers (db : Database) : list Customer := customers db.

(** The function view [index]. *)
Definition index (db : Database) (request : HttpRequest) : Outcome HttpResponse :=
  let products := all_products db in
  let paginator := Paginator.make products 2 in
  let page_number := QueryDict_get (GET request) "page" PyNone in
  match get_page paginator page_number with
  | inl e => Raises (InvalidPageError e)
  | inr page_obj =>
      Returns (render "blog/index.html" {[ "page_obj" := CtxProductPage page_obj ]})
  end.

(** [index] for any reading of the page parameter. *)
Definition index_with (read : string -> option Z)
  (db : Database) (request : HttpRequest) : Outcome HttpResponse :=
  let products := all_products db in
  let paginator := Paginator.make products 2 in
  let page_number := QueryDict_get (GET request) "page" PyNone in
  match get_page_with read paginator page_number with
  | inl e => Raises (InvalidPageError e)
  | inr page_obj =>
      Returns (render "blog/index.html" {[ "page_obj" := CtxProductPage page_obj ]})
  end.

(** [ContextMixin.get_context_data]: the keyword arguments and the view. *)
Definition base_context (kwargs : gmap string ctxval) : gmap string ctxval :=
  <["view" := CtxView]> kwargs.

(** [Order.objects.filter(product__in=products)]. *)
Definition orders_with_product_in (db : Database) (ps : list Product) : list Order :=
  filter (fun o => existsb (fun p => product_of_order o p) ps) (orders db).

Module ProductListTemplateView.

Definition template_name := "blog/product/index.html".

(** [read] is what [int] makes of the page parameter and [mean] the mean
    the database engine returns for [Avg]. *)
Definition get_context_data (read : string -> option Z) (mean : list Z -> Q)
  (db : Database) (request : HttpRequest) : Outcome (gmap string ctxval) :=
  let context := base_context ∅ in
  let products := all_products db in
  let paginator := Paginator.make products 2 in
  let page_number := QueryDict_get (GET request) "page" PyNone in
  match get_page_with read paginator page_number with
  | inl e => Raises (InvalidPageError e)
  | inr page_obj =>
      let total_quantity :=
        sql_sum ((fun o => Some (order_quantity o))
                 <$> orders_with_product_in db products) in
      let average_price := sql_avg mean (product_price <$> products) in
      Returns (<["average_price" := CtxAvg average_price]>
               (<["total_quantity" := CtxSum total_quantity]>
                (<["page_obj" := CtxProductPage page_obj]> context)))
  end.

Definition get (read : string -> option Z) (mean : list Z -> Q)
  (db : Database) (request : HttpRequest) : Outcome HttpResponse :=
  context ←! get_context_data read mean db request;
  Returns (render template_name context).

End ProductListTemplateView.

Module ProductDetailTemplateView.

Definition template_name := "blog/product/product-detail.html".

Definition get_context_data (db : Database) (slug : string)
  : Outcome (gmap string ctxval) :=
  let context := base_context {[ "slug" := CtxStr slug ]} in
  product ←! get_or_raise "Product" (fun p => String.eqb (product_slug p) slug)
                          (products db);
  Returns (<["attributes" := CtxAttributes product]>
           (<["product" := CtxProduct product]> context)).

Definition get (db : Database) (request : HttpRequest) (slug : string)
  : Outcome HttpResponse :=
  context ←! get_context_data db slug;
  Returns (render template_name context).

End ProductDetailTemplateView.

(** [Model.save()] of a row read from the table: the row with that key is
    replaced; a row with a new key is appended. *)
Definition save_row {A} (key : A -> Z) (row : A) (table : list A) : list A :=
  if existsb (fun r => key r =? key row) table
  then (fun r => if key r =? key row then row else r) <$> table
  else table ++ [row].

Definition save_product (p : Product) (db : Database) : Database :=
  {| products := save_row product_id p (products db);
     customers := customers db; orders := orders db |}.

Definition save_customer (c : Customer) (db : Database) : Database :=
  {| products := products db;
     customers := save_row customer_id c (customers db); orders := orders db |}.

(** Modelled from the spec: [Order.customer]'s [on_delete] is declared in
    [blog/models.py]; deleting a customer cascades to the customer's
    orders. *)
Definition delete_customer (c : Customer) (db : Database) : Database :=
  {| products := products db;
     customers := filter (fun r => negb (customer_id r =? customer_id c)) (customers db);
     orders := filter (fun o => negb (order_of_customer c o)) (orders db) |}.

(** A bound model form of [blog/forms.py]: whether the posted data
    validates against the instance, and the instance [form.save()]
    writes. *)
Record ModelForm (A : Type) := {
  is_valid : QueryDict -> A -> bool;
  cleaned : QueryDict -> A -> A
}.
Arguments is_valid {A}.
Arguments cleaned {A}.

Module ProductUpdateView.

Definition template_name := "blog/product/update-product.html".

Definition lookup (db : Database) (slug : string) : Outcome Product :=
  get_or_raise "Product" (fun p => String.eqb (product_slug p) slug) (products db).

Definition get (db : Database) (request : HttpRequest) (slug : string)
  : Outcome HttpResponse :=
  product ←! lookup db slug;
  Returns (render template_name {[ "form" := CtxProductForm None (Some product) ]}).

Definition post (ProductListModelForm : ModelForm Product)
  (db : Database) (request : HttpRequest) (slug : string)
  : Database * Outcome HttpResponse :=
  match lookup db slug with
  | Raises e => (db, Raises e)
  | Returns product =>
      if is_valid ProductListModelForm (POST request) product
      then (save_product (cleaned ProductListModelForm (POST request) product) db,
            Returns (redirect "index"))
      else (db, Returns (render template_name
                           {[ "form" := CtxProductForm (Some (POST request))
                                                       (Some product) ]}))
  end.

End ProductUpdateView.

(** [.annotate(total_revenue=Sum(F('order__quantity') * F('order__product__price')))],
    as the list view and each export write it. *)
Definition with_total_revenue (db : Database) (qs : list Customer) : list Annotated :=
  annotate db qs.

Module CustomersListView.

Definition template_name := "blog/customer/customers.html".
Definition context_object_name := "page_obj".
Definition paginate_by := 2.

Definition get_queryset (db : Database) (request : HttpRequest) : list Annotated :=
  let queryset := all_customers db in
  let search_query := QueryDict_get (GET request) "search" PyNone in
  let queryset :=
    match search_query with
    | PyStr q =>
        if truthy search_query then filter (fun c => search_match q c) queryset
        else queryset
    | _ => queryset
    end in
  with_total_revenue db queryset.

(** [MultipleObjectMixin.paginate_queryset]: the page number is read from
    the query string, [last] names the last page, and a page number that
    cannot be read or is out of range raises [Http404]. *)
Definition paginate_queryset (request : HttpRequest) (queryset : list Annotated)
  (page_size : Z) : Outcome (Paginator Annotated * Page Annotated) :=
  let paginator := Paginator.make queryset page_size in
  let page := py_or (QueryDict_get (GET request) "page" PyNone) (PyInt 1) in
  page_number ←!
    match int page with
    | Some n => Returns n
    | None =>
        if str_eq page "last" then Returns (num_pages paginator)
        else Raises Http404
    end;
  match Paginator.page paginator (PyInt page_number) with
  | inr pg => Returns (paginator, pg)
  | inl _ => Raises Http404
  end.

(** [MultipleObjectMixin.get_context_data] followed by the two totals the
    view adds. The object list of the page is stored under
    [context_object_name] after the page itself was stored under
    [page_obj]. *)
Definition get_context_data (db : Database) (request : HttpRequest)
  (object_list : list Annotated) : Outcome (gmap string ctxval) :=
  paginated ←! paginate_queryset request object_list paginate_by;
  let paginator := paginated.1 in
  let pg := paginated.2 in
  let queryset := page_objects pg in
  let context : gmap string ctxval :=
    <["object_list" := CtxAnnotated queryset]>
    (<["is_paginated" := CtxBool (has_other_pages pg)]>
     (<["page_obj" := CtxCustomerPage pg]>
      {[ "paginator" := CtxCustomerPaginator paginator ]})) in
  let context := <[context_object_name := CtxAnnotated queryset]> context in
  let context := base_context context in
  let total_customers := Z.of_nat (length (all_customers db)) in
  let total_revenue :=
    sql_sum ((fun r => sql_mul r.1 r.2)
             <$> (all_customers db ≫= revenue_rows db)) in
  Returns (<["total_revenue" := CtxSum total_revenue]>
           (<["total_customers" := CtxInt total_customers]> context)).

Definition get (db : Database) (request : HttpRequest) : Outcome HttpResponse :=
  let object_list := get_queryset db request in
  context ←! get_context_data db request object_list;
  Returns (render template_name context).

(** The same three methods for any reading of the page parameter. *)
Definition paginate_queryset_with (read : string -> option Z)
  (request : HttpRequest) (queryset : list Annotated) (page_size : Z)
  : Outcome (Paginator Annotated * Page Annotated) :=
  let paginator := Paginator.make queryset page_size in
  let page := py_or (QueryDict_get (GET request) "page" PyNone) (PyInt 1) in
  page_number ←!
    match int_with read page with
    | Some n => Returns n
    | None =>
        if str_eq page "last" then Returns (num_pages paginator)
        else Raises Http404
    end;
  match page_with read paginator (PyInt page_number) with
  | inr pg => Returns (paginator, pg)
  | inl _ => Raises Http404
  end.

Definition get_context_data_with (read : string -> option Z)
  (db : Database) (request : HttpRequest) (object_list : list Annotated)
  : Outcome (gmap string ctxval) :=
  paginated ←! paginate_queryset_with read request object_list paginate_by;
  let paginator := paginated.1 in
  let pg := paginated.2 in
  let queryset := page_objects pg in
  let context : gmap string ctxval :=
    <["object_list" := CtxAnnotated queryset]>
    (<["is_paginated" := CtxBool (has_other_pages pg)]>
     (<["page_obj" := CtxCustomerPage pg]>
      {[ "paginator" := CtxCustomerPaginator paginator ]})) in
  let context := <[context_object_name := CtxAnnotated queryset]> context in
  let context := base_context context in
  let total_customers := Z.of_nat (length (all_customers db)) in
  let total_revenue :=
    sql_sum ((fun r => sql_mul r.1 r.2)
             <$> (all_customers db ≫= revenue_rows db)) in
  Returns (<["total_revenue" := CtxSum total_revenue]>
           (<["total_customers" := CtxInt total_customers]> context)).

Definition get_with (read : string -> option Z)
  (db : Database) (request : HttpRequest) : Outcome HttpResponse :=
  let object_list := get_queryset db request in
  context ←! get_context_data_with read db request object_list;
  Returns (render template_name context).

End CustomersListView.

Module CustomerDetailView.

Definition template_name := "blog/customer/customer-details.html".
Definition context_object_name := "customer".

Definition get_object (db : Database) (pk : Z) : Outcome Customer :=
  get_object_or_404 "Customer" (fun c => customer_id c =? pk) (customers db).

Definition get_context_data (db : Database) (pk : Z) (object : Customer)
  : Outcome (gmap string ctxval) :=
  let context : gmap string ctxval :=
    base_context (<[context_object_name := CtxCustomer object]>
                  {[ "object" := CtxCustomer object ]}) in
  customer ←! get_object db pk;
  let customer_total_revenue := aggregate_revenue db (orders_of db customer) in
  Returns (<["total_revenue" := CtxSum customer_total_revenue]> context).

Definition get (db : Database) (request : HttpRequest) (pk : Z)
  : Outcome HttpResponse :=
  object ←! get_object db pk;
  context ←! get_context_data db pk object;
  Returns (render template_name context).

End CustomerDetailView.

(** [SingleObjectMixin.get_object], which the delete view inherits: the
    queryset is filtered by the key and a missing row raises [Http404]. *)
Definition SingleObjectMixin_get_object (db : Database) (pk : Z) : Outcome Customer :=
  match get_or_raise "Customer" (fun c => customer_id c =? pk) (customers db) with
  | Raises (DoesNotExist _) => Raises Http404
  | obj => obj
  end.

Module CustomerDeleteView.

Definition success_url := "customers".

(** [DeletionMixin.delete]. *)
Definition delete (db : Database) (request : HttpRequest) (pk : Z)
  : Database * Outcome HttpResponse :=
  match SingleObjectMixin_get_object db pk with
  | Raises e => (db, Raises e)
  | Returns object => (delete_customer object db, Returns (redirect success_url))
  end.

Definition get (db : Database) (request : HttpRequest) (pk : Z)
  : Database * Outcome HttpResponse :=
  delete db request pk.

End CustomerDeleteView.

Module CustomerUpdateView.

Definition template_name := "blog/customer/update-customer.html".

Definition get_object (db : Database) (pk : Z) : Outcome Customer :=
  get_or_raise "Customer" (fun c => customer_id c =? pk) (customers db).

Definition get_success_url (pk : Z) : string :=
  "customers_detail/" ++ pretty pk.

Definition get_context_data (form : ctxval) (object : Customer) : gmap string ctxval :=
  base_context (<["customer" := CtxCustomer object]>
                (<["object" := CtxCustomer object]> {[ "form" := form ]})).

(** [BaseUpdateView.get]. *)
Definition get (db : Database) (request : HttpRequest) (pk : Z)
  : Outcome HttpResponse :=
  object ←! get_object db pk;
  Returns (render template_name
             (get_context_data (CtxCustomerForm None (Some object)) object)).

(** [BaseUpdateView.post]. *)
Definition post (CustomerModelForm : ModelForm Customer)
  (db : Database) (request : HttpRequest) (pk : Z)
  : Database * Outcome HttpResponse :=
  match get_object db pk with
  | Raises e => (db, Raises e)
  | Returns object =>
      if is_valid CustomerModelForm (POST request) object
      then (save_customer (cleaned CustomerModelForm (POST request) object) db,
            Returns (redirect (get_success_url pk)))
      else (db, Returns (render template_name
                           (get_context_data
                              (CtxCustomerForm (Some (POST request)) (Some object))
                              object)))
  end.

End CustomerUpdateView.

Module ExportDataView.

Definition header : list string :=
  ["id"; "name"; "email"; "phone"; "billing_address"; "total_revenue"].

Definition dquote : string := String (ascii_of_nat 34) EmptyString.

Definition attachment (filename : string) : string * string :=
  ("Content-Disposition", "attachment; filename=" ++ dquote ++ filename ++ dquote).

Definition revenue_cell (r : option Z) : Cell :=
  match r with
  | None => CNone
  | Some d => CDec d
  end.

(** The list written for one customer by the CSV and XLSX loops. *)
Definition row (a : Annotated) : list Cell :=
  let c := customer a in
  [CInt (customer_id c); CStr (customer_name c); CStr (customer_email c);
   CStr (customer_phone c); CStr (customer_billing_address c);
   revenue_cell (total_revenue a)].

(** One dictionary of [.values('id', 'name', ..., 'total_revenue')]. *)
Definition values (a : Annotated) : list (string * Cell) :=
  let c := customer a in
  [("id", CInt (customer_id c)); ("name", CStr (customer_name c));
   ("email", CStr (customer_email c)); ("phone", CStr (customer_phone c));
   ("billing_address", CStr (customer_billing_address c));
   ("total_revenue", revenue_cell (total_revenue a))].

Definition export_csv (db : Database) : HttpResponse :=
  let customers := with_total_revenue db (all_customers db) in
  {| status_code := 200;
     headers := [("Content-Type", "text/csv"); attachment "customers.csv"];
     content := CsvRows ((CStr <$> header) :: (row <$> customers)) |}.

(** What [json.dumps] encodes with its default encoder: [None], an
    integer, a string. A [Decimal] is not among them. *)
Definition json_encodable (c : Cell) : bool :=
  match c with
  | CDec _ => false
  | _ => true
  end.

(** [json.dumps(data, indent=4)] raises [TypeError] at a value it does
    not encode. *)
Definition export_json (db : Database) : Outcome HttpResponse :=
  let data := values <$> with_total_revenue db (all_customers db) in
  if forallb (fun object : list (string * Cell) =>
                forallb (fun item => json_encodable item.2) object) data
  then Returns
         {| status_code := 200;
            headers := [("Content-Type", "application/json");
                        attachment "customers.json"];
            content := JsonDump data 4 |}
  else Raises TypeError.

Definition export_xlsx (db : Database) : HttpResponse :=
  let headers_row := CStr <$> header in
  let customers := with_total_revenue db (all_customers db) in
  {| status_code := 200;
     headers := [("Content-Type", "application/ms-excel");
                 attachment "customers.xlsx"];
     content := Worksheet "Customers" (headers_row :: (row <$> customers)) |}.

Definition get (db : Database) (request : HttpRequest) : Outcome HttpResponse :=
  let format := QueryDict_get (GET request) "format" (PyStr "csv") in
  if str_eq format "csv" then Returns (export_csv db)
  else if str_eq format "json" then export_json db
  else if str_eq format "xlsx" then Returns (export_xlsx db)
  else Returns {| status_code := 404;
                  headers := [("Content-Type", "text/html; charset=utf-8")];
                  content := Text "Bad requests" |}.

End ExportDataView.

(** A model form of [blog/forms.py] bound to posted data without an
    instance: whether the data validates against the table, and the row
    [form.save()] inserts, the key the database gives it included. *)
Record CreateForm (A : Type) := {
  accepts : QueryDict -> list A -> bool;
  inserted : QueryDict -> list A -> A
}.
Arguments accepts {A}.
Arguments inserted {A}.

Module ProductAddTemplateView.

Definition template_name := "blog/product/add-product.html".

(** The form stored last is a new unbound [ProductListModelForm()],
    whatever form came in through the keyword arguments. *)
Definition get_context_data (kwargs : gmap string ctxval) : gmap string ctxval :=
  let context := base_context kwargs in
  <["form" := CtxProductForm None None]> context.

(** [TemplateView.get]. *)
Definition get (db : Database) (request : HttpRequest) : Outcome HttpResponse :=
  Returns (render template_name (get_context_data ∅)).

Definition post (ProductListModelForm : CreateForm Product)
  (db : Database) (request : HttpRequest) : Database * Outcome HttpResponse :=
  if accepts ProductListModelForm (POST request) (products db)
  then (save_product (inserted ProductListModelForm (POST request) (products db)) db,
        Returns (redirect "index"))
  else (db, Returns (render template_name
                       (get_context_data
                          {[ "form" := CtxProductForm (Some (POST request)) None ]}))).

End ProductAddTemplateView.

Module CustomersAddListView.

Definition template_name := "blog/customer/add-customer.html".

(** What [post] comes to: a response, or the [AttributeError] of
    [MultipleObjectMixin.get_context_data] reading [self.object_list],
    an attribute that only [get] sets. *)
Inductive PostResult :=
| Responded (response : HttpResponse)
| AttributeError (attribute : string).

Definition post (CustomerModelForm : CreateForm Customer)
  (db : Database) (request : HttpRequest) : Database * PostResult :=
  if accepts CustomerModelForm (POST request) (customers db)
  then (save_customer (inserted CustomerModelForm (POST request) (customers db)) db,
        Responded (redirect "customers"))
  else (db, AttributeError "object_list").

End CustomersAddListView.

End Views.

(** ** [blog/views/auth.py] *)

Module Auth.

(** Modelled from the spec: the [User] model of [blog/models.py]. The
    primary key is the key of the table. *)
Record User := {
  email : string;
  first_name : string;
  password : string;
  is_active : bool;
  is_staff : bool;
  is_superuser : bool
}.

Definition with_flags (u : User) (active staff superuser : bool) : User :=
  {| email := email u; first_name := first_name u; password := password u;
     is_active := active; is_staff := staff; is_superuser := superuser |}.

Definition activated (u : User) : User :=
  with_flags u true (is_staff u) (is_superuser u).

(** The activation mail: the subject, the template with its context, the
    recipients and the subtype. *)
Record EmailMessage := {
  subject : string;
  body_template : string;
  body_domain : string;
  body_uid : string;
  body_token : string;
  to : list string;
  content_subtype : string
}.

(** What the auth views read and write besides the request: the user
    table, the user the session is logged in as, the mail sent and the
    messages queued for the next page. *)
Record Site := {
  users : gmap Z User;
  session_user : option Z;
  outbox : list EmailMessage;
  flash : list (string * string)
}.

(** The collaborators of the views that are not in these two files: the
    registration form ([blog/forms.py]), the user manager
    ([blog/models.py]), the token generator ([blog/views/tokens.py]), the
    base64 helpers of [django.utils.http] and the mail backend. *)
Class Collaborators := {
  (** [form.is_valid()] of the bound [RegisterForm] *)
  form_is_valid : gmap Z User -> QueryDict -> bool;
  (** [form.cleaned_data.get(field)] *)
  cleaned_data : QueryDict -> string -> string;
  (** [User.objects.create_user]: the key and the row it saves *)
  create_user : string -> string -> string -> gmap Z User -> Z * User;
  make_token : Z -> User -> string;
  check_token : Z -> User -> string -> bool;
  urlsafe_base64_encode : string -> string;
  (** [force_str(urlsafe_base64_decode(s))]; [None] for the [ValueError] *)
  urlsafe_base64_decode : string -> option string;
  (** [get_current_site(request).domain] *)
  domain : string;
  (** whether [EmailMessage.send] goes through; it raises otherwise *)
  delivers : EmailMessage -> bool
}.

Section Views.

Context `{Collaborators}.

Definition set_users (site : Site) (us : gmap Z User) : Site :=
  {| users := us; session_user := session_user site;
     outbox := outbox site; flash := flash site |}.

(** [login(request, user, backend=...)]: the session now names the user.
    It does not look at [is_active]. *)
Definition login (site : Site) (pk : Z) : Site :=
  {| users := users site; session_user := Some pk;
     outbox := outbox site; flash := flash site |}.

Definition sent (site : Site) (m : EmailMessage) : Site :=
  {| users := users site; session_user := session_user site;
     outbox := outbox site ++ [m]; flash := flash site |}.

(** [messages.warning(request, text)]. *)
Definition messages_warning (site : Site) (text : string) : Site :=
  {| users := users site; session_user := session_user site;
     outbox := outbox site; flash := flash site ++ [("warning", text)] |}.

Definition RegisterView_template := "blog/auth/register.html".

(** The message the registration view builds: the rendered activation
    template with the user's key in base64 and the user's token. *)
Definition activation_email (pk : Z) (user : User) (address : string)
  : EmailMessage :=
  {| subject := "Verify your email";
     body_template := "blog/auth/email/activation.html";
     body_domain := domain;
     body_uid := urlsafe_base64_encode (pretty pk);
     body_token := make_token pk user;
     to := [address];
     content_subtype := "html" |}.

Definition RegisterView_post (site : Site) (request : HttpRequest)
  : Site * Outcome HttpResponse :=
  if form_is_valid (users site) (POST request) then
    let first_name := cleaned_data (POST request) "first_name" in
    let email := cleaned_data (POST request) "email" in
    let password := cleaned_data (POST request) "password" in
    let created := create_user first_name email password (users site) in
    let pk := created.1 in
    let site := set_users site (<[pk := created.2]> (users site)) in
    let user := with_flags created.2 false true true in
    let site := set_users site (<[pk := user]> (users site)) in
    let email_message := activation_email pk user email in
    if delivers email_message then
      let site := sent site email_message in
      let site := login site pk in
      (site, Returns (redirect "verify_email_done"))
    else (site, Raises SMTPException)
  else
    (site, Returns (render RegisterView_template
                      {[ "form" := CtxForm (Some (POST request)) ]})).

(** [User.objects.get(pk=uid)] with the decoded text as key: a text that is
    not a number raises [ValueError], an unknown key [User.DoesNotExist];
    both are caught by the view, as is the decoding error. *)
Definition user_of_uidb64 (site : Site) (uidb64 : string) : option (Z * User) :=
  uid ← urlsafe_base64_decode uidb64;
  pk ← int_of_str uid;
  user ← users site !! pk;
  Some (pk, user).

Definition VerifyEmailConfirmView_template := "blog/auth/email/verify-email-confirm.html".
Definition VerifyEmailConfirmView_success_url := "verify_email_complete".

Definition invalid_link (site : Site) : Site * Outcome HttpResponse :=
  (messages_warning site "The link is invalid.",
   Returns (render VerifyEmailConfirmView_template ∅)).

Definition VerifyEmailConfirmView_get (site : Site) (request : HttpRequest)
  (uidb64 token : string) : Site * Outcome HttpResponse :=
  match user_of_uidb64 site uidb64 with
  | Some (pk, user) =>
      if check_token pk user token then
        (set_users site (<[pk := activated user]> (users site)),
         Returns (redirect VerifyEmailConfirmView_success_url))
      else invalid_link site
  | None => invalid_link site
  end.

End Views.

(** [logout_page]: [logout] empties the session, then the browser is
    sent to the index. *)
Definition logout_page (site : Site) (request : HttpRequest)
  : Site * Outcome HttpResponse :=
  ({| users := users site; session_user := None;
      outbox := outbox site; flash := flash site |},
   Returns (redirect "index")).

End Auth.

(** ** An environment to run the auth views on

    URL-safe base64 without padding, numbered keys, a token bound to the
    key and the state of the row, and a mail backend that delivers. *)

Module Reference.

Import Auth.

Definition b64_char (n : Z) : ascii :=
  default "A"%char
    (String.get (Z.to_nat n)
       "ABCDEFGHIJKLMNOPQRSTUVWXYZabcdefghijklmnopqrstuvwxyz0123456789-_").

Definition b64_value (c : ascii) : option Z :=
  let n := Z.of_nat (nat_of_ascii c) in
  if (65 <=? n) && (n <=? 90) then Some (n - 65)
  else if (97 <=? n) && (n <=? 122) then Some (n - 71)
  else if (48 <=? n) && (n <=? 57) then Some (n + 4)
  else if n =? 45 then Some 62
  else if n =? 95 then Some 63
  else None.

Definition byte (c : ascii) : Z := Z.of_nat (nat_of_ascii c).
Definition chr (n : Z) : ascii := ascii_of_nat (Z.to_nat (n mod 256)).

Fixpoint b64_encode (s : list ascii) : list ascii :=
  match s with
  | a :: b :: c :: r =>
      let n := byte a * 65536 + byte b * 256 + byte c in
      b64_char (n / 262144) :: b64_char (n / 4096 mod 64)
        :: b64_char (n / 64 mod 64) :: b64_char (n mod 64) :: b64_encode r
  | [a; b] =>
      let n := (byte a * 256 + byte b) * 4 in
      [b64_char (n / 4096); b64_char (n / 64 mod 64); b64_char (n mod 64)]
  | [a] =>
      let n := byte a * 16 in
      [b64_char (n / 64); b64_char (n mod 64)]
  | [] => []
  end.

Fixpoint b64_decode (s : list ascii) : option (list ascii) :=
  match s with
  | a :: b :: c :: d :: r =>
      va ← b64_value a; vb ← b64_value b; vc ← b64_value c; vd ← b64_value d;
      rest ← b64_decode r;
      let n := va * 262144 + vb * 4096 + vc * 64 + vd in
      Some (chr (n / 65536) :: chr (n / 256) :: chr n :: rest)
  | [a; b; c] =>
      va ← b64_value a; vb ← b64_value b; vc ← b64_value c;
      let n := (va * 4096 + vb * 64 + vc) / 4 in
      Some [chr (n / 256); chr n]
  | [a; b] =>
      va ← b64_value a; vb ← b64_value b;
      Some [chr ((va * 64 + vb) / 16)]
  | [_] => None
  | [] => Some []
  end.

Definition next_key (us : gmap Z User) : Z :=
  1 + map_fold (fun k _ m => Z.max k m) 0 us.

Definition field (post : QueryDict) (name : string) : string :=
  match QueryDict_get post name PyNone with
  | PyStr s => s
  | _ => ""
  end.

Definition token (pk : Z) (u : User) : string :=
  pretty pk ++ "-" ++ password u ++ "-" ++ (if is_active u then "1" else "0").

#[export] Instance collaborators : Collaborators := {|
  form_is_valid us post :=
    negb (String.eqb (field post "email") "") &&
    negb (String.eqb (field post "password") "") &&
    bool_decide (map_Forall (fun _ u => email u ≠ field post "email") us);
  cleaned_data := field;
  create_user first_name email password us :=
    (next_key us,
     {| email := email; first_name := first_name; password := password;
        is_active := true; is_staff := false; is_superuser := false |});
  make_token := token;
  check_token pk u t := String.eqb (token pk u) t;
  urlsafe_base64_encode s :=
    string_of_list_ascii (b64_encode (list_ascii_of_string s));
  urlsafe_base64_decode s :=
    string_of_list_ascii <$> b64_decode (list_ascii_of_string s);
  domain := "example.com";
  delivers _ := true
|}.

Definition empty_site : Site :=
  {| users := ∅; session_user := None; outbox := []; flash := [] |}.

Definition no_request : HttpRequest := {| GET := []; POST := [] |}.

Definition signup : HttpRequest :=
  {| GET := [];
     POST := [("first_name", "Ann"); ("email", "ann@example.com");
              ("password", "s3cret")] |}.

End Reference.

(** ** The claims in the words of the specification *)

Module Spec.

(** [order.product]: the product row the order's foreign key names. *)
Definition order_product (db : Database) (o : Order) : option Product :=
  match get (fun p => product_id p =? order_product_id o) (products db) with
  | Found p => Some p
  | _ => None
  end.

(** [order.quantity × order.product.price], at the product's current
    price. *)
Definition order_revenue (db : Database) (o : Order) : Z :=
  match order_product db o with
  | Some p => order_quantity o * product_price p
  | None => 0
  end.

(** The revenue of a customer: absent without orders, else the sum of the
    order revenues. *)
Definition revenue (db : Database) (c : Customer) : option Z :=
  match orders_of db c with
  | [] => None
  | os => Some (foldr Z.add 0 (order_revenue db <$> os))
  end.

(** [q] occurs in [field] when case is ignored. *)
Definition occurs_ignoring_case (q field : string) : Prop :=
  exists before after, lower field = before ++ lower q ++ after.

Definition matches (q : string) (c : Customer) : Prop :=
  occurs_ignoring_case q (customer_name c) \/
  occurs_ignoring_case q (customer_email c).

(** The page a clamping paginator would show: the nearest page among
    [1 .. last]. *)
Definition nearest_page (last n : Z) : Z := Z.max 1 (Z.min last n).

(** The page [get_page] serves: the first page for what is not a number,
    the last page for a number below one or above the last page. *)
Definition served (last : Z) (number : pyval) : Z :=
  match int number with
  | None => 1
  | Some n => if (n <? 1) || (n >? last) then last else n
  end.

(** The page the customer list serves, if any: the first page when the
    parameter is missing or empty, the last page for [last], the page of
    that number for a number from one to the last page. *)
Definition listed (last : Z) (page : pyval) : option Z :=
  let page := py_or page (PyInt 1) in
  match int page with
  | Some n => if (1 <=? n) && (n <=? last) then Some n else None
  | None => if str_eq page "last" then Some last else None
  end.

(** The same two for any reading of the page parameter. *)
Definition served_with (read : string -> option Z) (last : Z) (number : pyval) : Z :=
  match int_with read number with
  | None => 1
  | Some n => if (n <? 1) || (n >? last) then last else n
  end.

Definition listed_with (read : string -> option Z) (last : Z) (page : pyval)
  : option Z :=
  let page := py_or page (PyInt 1) in
  match int_with read page with
  | Some n => if (1 <=? n) && (n <=? last) then Some n else None
  | None => if str_eq page "last" then Some last else None
  end.

Definition shown_customers_with (read : string -> option Z)
  (db : Database) (request : HttpRequest) : option (list Annotated) :=
  match Views.CustomersListView.get_with read db request with
  | Returns {| content := Template _ context |} =>
      match context !! "page_obj" with
      | Some (CtxAnnotated rows) => Some rows
      | _ => None
      end
  | _ => None
  end.

(** The customers the list view hands to its template. *)
Definition shown_customers (db : Database) (request : HttpRequest)
  : option (list Annotated) :=
  match Views.CustomersListView.get db request with
  | Returns {| content := Template _ context |} =>
      match context !! "page_obj" with
      | Some (CtxAnnotated rows) => Some rows
      | _ => None
      end
  | _ => None
  end.

(** The sum of the ordered quantities of the whole order table. *)
Definition quantity_of_all_orders (db : Database) : option Z :=
  match orders db with
  | [] => None
  | os => Some (foldr Z.add 0 (order_quantity <$> os))
  end.

Section AuthSpec.

Context `{Auth.Collaborators}.

(** The link names the user [pk] of the table and its token checks out
    for that user. *)
Definition valid_link (site : Auth.Site) (uidb64 token : string)
  (pk : Z) (user : Auth.User) : Prop :=
  exists uid,
    Auth.urlsafe_base64_decode uidb64 = Some uid /\
    int_of_str uid = Some pk /\
    Auth.users site !! pk = Some user /\
    Auth.check_token pk user token = true.

(** The key and the row of the user a registration request creates. *)
Definition registered (site : Auth.Site) (request : HttpRequest) : Z * Auth.User :=
  let created :=
    Auth.create_user (Auth.cleaned_data (POST request) "first_name")
                     (Auth.cleaned_data (POST request) "email")
                     (Auth.cleaned_data (POST request) "password")
                     (Auth.users site) in
  (created.1, Auth.with_flags created.2 false true true).

(** The columns of a user row other than [is_active]. *)
Definition other_columns (u : Auth.User) : string * string * string * bool * bool :=
  (Auth.email u, Auth.first_name u, Auth.password u, Auth.is_staff u,
   Auth.is_superuser u).

End AuthSpec.

(** The sum of the ordered quantities of the products in [ps]. *)
Definition quantity_ordered_of (db : Database) (ps : list Product) : option Z :=
  sql_sum ((fun o => Some (order_quantity o))
           <$> filter (fun o => existsb (fun p => product_of_order o p) ps) (orders db)).

End Spec.

(** ** Sample data *)

Module Samples.

Definition tea : Product :=
  {| product_id := 1; product_slug := "tea"; product_price := 1000;
     product_quantity := 7 |}.
Definition mug : Product :=
  {| product_id := 2; product_slug := "mug"; product_price := 500;
     product_quantity := 3 |}.
Definition pot : Product :=
  {| product_id := 3; product_slug := "pot"; product_price := 700;
     product_quantity := 1 |}.

Definition ann : Customer :=
  {| customer_id := 1; customer_name := "Ann Lee";
     customer_email := "ann@example.com"; customer_phone := "555-0101";
     customer_billing_address := "1 High St" |}.
Definition bob : Customer :=
  {| customer_id := 2; customer_name := "Bob Ray";
     customer_email := "BOB@Example.com"; customer_phone := "555-0102";
     customer_billing_address := "2 Low Rd" |}.
Definition cy : Customer :=
  {| customer_id := 3; customer_name := "Cy Day";
     customer_email := "cy@example.org"; customer_phone := "555-0103";
     customer_billing_address := "3 Mid Ln" |}.

Definition order (id customer product quantity : Z) : Order :=
  {| order_id := id; order_customer_id := customer;
     order_product_id := product; order_quantity := quantity |}.

(** Ann ordered two teas and one mug, Cy four pots, Bob nothing. *)
Definition shop : Database :=
  {| products := [tea; mug; pot];
     customers := [ann; bob; cy];
     orders := [order 1 1 1 2; order 2 1 2 1; order 3 3 3 4] |}.

(** The same shop after the price of tea went from 10.00 to 12.00. *)
Definition shop_repriced : Database :=
  {| products := [{| product_id := 1; product_slug := "tea";
                     product_price := 1200; product_quantity := 7 |}; mug; pot];
     customers := customers shop;
     orders := orders shop |}.

(** A shop with a single customer. *)
Definition small_shop : Database :=
  {| products := [tea]; customers := [ann]; orders := [order 1 1 1 2] |}.

Definition request (query : QueryDict) : HttpRequest :=
  {| GET := query; POST := [] |}.

(** A database engine whose [AVG] keeps twelve decimal places. *)
Definition mean (col : list Z) : Q :=
  Qmake (foldr Z.add 0 col * 10 ^ 12 / Z.of_nat (length col)) (10 ^ 12).

Definition post_request (data : QueryDict) : HttpRequest :=
  {| GET := []; POST := data |}.

(** A customer form that takes the posted name and a product form that
    takes the posted price; both keep the key. *)
Definition name_form : Views.ModelForm Customer :=
  {| Views.is_valid := fun post _ => negb (String.eqb (Reference.field post "name") "");
     Views.cleaned := fun post c =>
       {| customer_id := customer_id c;
          customer_name := Reference.field post "name";
          customer_email := customer_email c;
          customer_phone := customer_phone c;
          customer_billing_address := customer_billing_address c |} |}.

Definition price_form : Views.ModelForm Product :=
  {| Views.is_valid := fun post _ =>
       bool_decide (is_Some (int_of_str (Reference.field post "price")));
     Views.cleaned := fun post p =>
       {| product_id := product_id p;
          product_slug := product_slug p;
          product_price :=
            default (product_price p) (int_of_str (Reference.field post "price"));
          product_quantity := product_quantity p |} |}.

(** Forms for new rows: the key is one more than the largest key. *)
Definition next_id {A} (key : A -> Z) (table : list A) : Z :=
  1 + foldr Z.max 0 (key <$> table).

Definition new_customer_form : Views.CreateForm Customer :=
  {| Views.accepts := fun post _ => negb (String.eqb (Reference.field post "name") "");
     Views.inserted := fun post table =>
       {| customer_id := next_id customer_id table;
          customer_name := Reference.field post "name";
          customer_email := Reference.field post "email";
          customer_phone := Reference.field post "phone";
          customer_billing_address := Reference.field post "billing_address" |} |}.

Definition new_product_form : Views.CreateForm Product :=
  {| Views.accepts := fun post _ =>
       bool_decide (is_Some (int_of_str (Reference.field post "price")));
     Views.inserted := fun post table =>
       {| product_id := next_id product_id table;
          product_slug := Reference.field post "slug";
          product_price := default 0 (int_of_str (Reference.field post "price"));
          product_quantity := 0 |} |}.

(** The context of the customer list searched for bob, page 1. *)
Definition bob_context : gmap string ctxval :=
  match Views.CustomersListView.get shop
          (request [("search", "bob"); ("page", "1")]) with
  | Returns {| content := Template _ context |} => context
  | _ => ∅
  end.

(** The site after Ann signed up, in the reference environment. *)
Definition signed_up : Auth.Site :=
  (@Auth.RegisterView_post Reference.collaborators
     Reference.empty_site Reference.signup).1.

End Samples.

(** ** Browsing and sequences of requests *)

Module Browse.

(** The products the index shows for a request. *)
Definition index_products (db : Database) (request : HttpRequest) : list Product :=
  match Views.index db request with
  | Returns {| content := Template _ context |} =>
      match context !! "page_obj" with
      | Some (CtxProductPage pg) => page_objects pg
      | _ => []
      end
  | _ => []
  end.

(** The request for page [k] of a listing, with the given search text. *)
Definition page_request (k : Z) : HttpRequest :=
  {| GET := [("page", pretty k)]; POST := [] |}.

Definition search_page_request (q : string) (k : Z) : HttpRequest :=
  {| GET := [("search", q); ("page", pretty k)]; POST := [] |}.

(** The customer list for a search text, before it is cut into pages. *)
Definition search_results (db : Database) (q : string) : list Annotated :=
  Views.CustomersListView.get_queryset db {| GET := [("search", q)]; POST := [] |}.

(** The customers the list view shows for a request; none when it
    raises. *)
Definition listed_customers (db : Database) (request : HttpRequest) : list Annotated :=
  default [] (Spec.shown_customers db request).

End Browse.

Module Flow.

Import Auth.

Section Flow.

Context `{Collaborators}.

(** A request to one of the views of [auth.py] that write the site. *)
Inductive AuthRequest :=
| Register (request : HttpRequest)
| Confirm (request : HttpRequest) (uidb64 token : string)
| Logout (request : HttpRequest).

Definition handle (site : Site) (r : AuthRequest) : Site * Outcome HttpResponse :=
  match r with
  | Register request => RegisterView_post site request
  | Confirm request uidb64 token => VerifyEmailConfirmView_get site request uidb64 token
  | Logout request => logout_page site request
  end.

(** The site after a sequence of requests; a request that raises still
    leaves what it wrote before. *)
Fixpoint run (site : Site) (rs : list AuthRequest) : Site :=
  match rs with
  | [] => site
  | r :: rs' => run (handle site r).1 rs'
  end.

(** Some request of the sequence is a confirmation whose link is valid
    for user [k] when it is handled. *)
Fixpoint confirmed_in (site : Site) (rs : list AuthRequest) (k : Z) : Prop :=
  match rs with
  | [] => False
  | r :: rs' =>
      match r with
      | Confirm _ uidb64 token => exists u, Spec.valid_link site uidb64 token k u
      | _ => False
      end \/ confirmed_in (handle site r).1 rs' k
  end.

End Flow.

(** Ann signs up, follows the link of her mail and logs out. *)
Definition sign_up_confirm_logout : list AuthRequest :=
  [Register Reference.signup;
   Confirm Reference.no_request "MQ" "1-s3cret-0";
   Logout Reference.no_request].

(** A good link, a logout and a stale link. *)
Definition confirm_logout_retry : list AuthRequest :=
  [Confirm Reference.no_request "MQ" "1-s3cret-0";
   Logout Reference.no_request;
   Confirm Reference.no_request "MQ" "1-s3cret-0"].

End Flow.

(** * Properties *)

(** ** Lists, sums and keys *)

Section Lists.

Context {A : Type}.

Lemma sql_sum_Some (l : list Z) :
  sql_sum (Some <$> l) =
  match l with
  | [] => None
  | _ => Some (foldr Z.add 0 l)
  end.
Proof.
  induction l as [|x l IH]; [done|].
  cbn [fmap list_fmap sql_sum]. change (list_fmap _ _ Some l) with (Some <$> l).
  rewrite IH. destruct l; cbn; f_equal; lia.
Qed.

Lemma filter_absent_key (key : A -> Z) (l : list A) (k : Z) :
  k ∉ key <$> l -> filter (fun y => key y =? k) l = [].
Proof.
  induction l as [|y l IH]; intros Hk; [done|].
  rewrite fmap_cons in Hk. apply not_elem_of_cons in Hk as [Hne Hk].
  rewrite filter_cons_False; [by apply IH|].
  intros Heq%Is_true_true%Z.eqb_eq. congruence.
Qed.

(** Filtering a table on a unique key finds the row and nothing else. *)
Lemma filter_unique_key (key : A -> Z) (l : list A) (x : A) :
  NoDup (key <$> l) -> x ∈ l ->
  filter (fun y => key y =? key x) l = [x].
Proof.
  induction l as [|y l IH]; intros Hnd Hin; [by apply elem_of_nil in Hin|].
  rewrite fmap_cons in Hnd. apply NoDup_cons in Hnd as [Hy Hnd].
  apply elem_of_cons in Hin as [->|Hin].
  - rewrite filter_cons_True; [|by apply Is_true_true, Z.eqb_refl].
    by rewrite filter_absent_key.
  - rewrite filter_cons_False; [by apply IH|].
    intros Heq%Is_true_true%Z.eqb_eq. apply Hy. rewrite Heq.
    by apply list_elem_of_fmap_2.
Qed.

Lemma existsb_elem_of (f : A -> bool) (l : list A) :
  existsb f l = true <-> exists x, x ∈ l /\ f x = true.
Proof.
  rewrite existsb_exists. split; intros (x & Hx & Hf); exists x; split; try done;
    by apply list_elem_of_In.
Qed.

End Lists.

(** ** Revenue *)

Section Revenue.

Variable db : Database.
Hypothesis Hok : db_ok db = true.

Lemma db_ok_products : NoDup (product_id <$> products db).
Proof.
  unfold db_ok, unique_keys in Hok.
  apply andb_prop in Hok as [[H1 _]%andb_prop _]. by apply bool_decide_eq_true in H1.
Qed.

Lemma db_ok_order (o : Order) :
  o ∈ orders db -> exists p, p ∈ products db /\ product_id p = order_product_id o.
Proof.
  intros Ho. unfold db_ok in Hok. apply andb_prop in Hok as [_ Hfk].
  rewrite forallb_forall in Hfk. apply list_elem_of_In, Hfk in Ho.
  apply andb_prop in Ho as [Hp _]. apply existsb_elem_of in Hp as (p & Hp & Heq).
  exists p. split; [done|]. by apply Z.eqb_eq.
Qed.

(** The join of an order with the product table has one row. *)
Lemma products_of_order (o : Order) :
  o ∈ orders db ->
  exists p, Spec.order_product db o = Some p /\
            filter (fun y => product_of_order o y) (products db) = [p].
Proof.
  intros (p & Hp & Heq)%db_ok_order.
  assert (filter (fun y => product_id y =? product_id p) (products db) = [p]) as Hf
    by (apply filter_unique_key; [apply db_ok_products|done]).
  exists p. unfold Spec.order_product, ORM.get, product_of_order.
  rewrite <- Heq. rewrite Hf. split; [done|].
  erewrite list_filter_iff; [exact Hf|]. intros y. by rewrite Z.eqb_sym.
Qed.

Lemma revenue_rows_orders (c : Customer) (os : list Order) :
  os ⊆ orders db ->
  ((fun y => (c, Some y)) <$> os) ≫=
    (fun co : Customer * option Order =>
       match co.2 with
       | None => [(None, None)]
       | Some o =>
           (fun op : Order * option Product =>
              (Some (order_quantity o), product_price <$> op.2))
             <$> left_join product_of_order (products db) o
       end)
  = (fun o => (Some (order_quantity o),
               product_price <$> Spec.order_product db o)) <$> os.
Proof.
  induction os as [|o os IH]; intros Hsub; [done|].
  rewrite fmap_cons, bind_cons, IH by set_solver.
  destruct (products_of_order o) as (p & Hp & Hf); [set_solver|].
  cbn. unfold left_join. rewrite Hf, Hp. done.
Qed.

Lemma priced_rows (os : list Order) :
  os ⊆ orders db ->
  (fun r : option Z * option Z => sql_mul r.1 r.2)
    <$> ((fun o => (Some (order_quantity o),
                    product_price <$> Spec.order_product db o)) <$> os)
  = Some <$> (Spec.order_revenue db <$> os).
Proof.
  induction os as [|o os IH]; intros Hsub; [done|].
  rewrite !fmap_cons, IH by set_solver. f_equal.
  destruct (products_of_order o) as (p & Hp & _); [set_solver|].
  unfold Spec.order_revenue. by rewrite Hp.
Qed.

Lemma orders_of_subseteq (c : Customer) : orders_of db c ⊆ orders db.
Proof. intros o Ho. unfold orders_of in Ho. by apply list_elem_of_filter in Ho as [_ ?]. Qed.

(** The annotation is the revenue of the specification. *)
Lemma sum_revenue_spec (c : Customer) : sum_revenue db c = Spec.revenue db c.
Proof.
  pose proof (orders_of_subseteq c) as Hsub.
  unfold sum_revenue, revenue_rows, Spec.revenue, left_join.
  fold (orders_of db c).
  destruct (orders_of db c) as [|o os] eqn:Hos; [done|].
  rewrite revenue_rows_orders, priced_rows, sql_sum_Some by done. done.
Qed.

(** So is the aggregate of the detail view. *)
Lemma aggregate_revenue_spec (c : Customer) :
  aggregate_revenue db (orders_of db c) = Spec.revenue db c.
Proof.
  pose proof (orders_of_subseteq c) as Hsub.
  unfold aggregate_revenue, Spec.revenue.
  assert (forall os, os ⊆ orders db ->
    (fun r : Order * Product =>
       sql_mul (Some (order_quantity r.1)) (Some (product_price r.2)))
    <$> (os ≫= inner_join product_of_order (products db))
    = Some <$> (Spec.order_revenue db <$> os)) as Hrows.
  { induction os as [|o os IH]; intros Hs; [done|].
    rewrite bind_cons, fmap_app, IH by set_solver. rewrite !fmap_cons.
    destruct (products_of_order o) as (p & Hp & Hf); [set_solver|].
    unfold inner_join, Spec.order_revenue. rewrite Hf, Hp. done. }
  rewrite Hrows by done. rewrite sql_sum_Some.
  by destruct (orders_of db c).
Qed.

Lemma annotate_spec (qs : list Customer) :
  annotate db qs =
  (fun c => {| customer := c; total_revenue := Spec.revenue db c |}) <$> qs.
Proof.
  unfold annotate. apply list_fmap_ext. intros _ c _. by rewrite sum_revenue_spec.
Qed.

End Revenue.

(** ** Pages *)

Section Pages.

Context {A : Type}.
Implicit Types (l : list A) (p : Paginator A).

Lemma ceil_div_pos (a b : Z) : 1 <= a -> 0 < b -> 1 <= ceil_div a b.
Proof.
  intros Ha Hb. unfold ceil_div.
  assert (- a / b < 0); [|lia].
  apply Z.div_lt_upper_bound; lia.
Qed.

Lemma num_pages_make l (n : Z) : 0 < n -> 1 <= num_pages (make l n).
Proof.
  intros Hn. unfold num_pages, make; cbn.
  rewrite andb_false_r. apply ceil_div_pos; lia.
Qed.

Lemma slice_subseteq l (bottom top : Z) : slice l bottom top ⊆ l.
Proof.
  unfold slice. etrans; [apply subseteq_take|apply subseteq_drop].
Qed.

(** A page number in range is served as such. *)
Lemma page_in_range p (n : Z) :
  1 <= n <= num_pages p ->
  exists pg, page p (PyInt n) = inr pg /\ number pg = n /\ paginator pg = p /\
             page_objects pg ⊆ object_list p.
Proof.
  intros [Hlo Hhi]. unfold page, validate_number. cbn [int].
  destruct (n <? 1) eqn:E1; [lia|].
  destruct (n >? num_pages p) eqn:E2; [lia|].
  eexists. split; [done|]. cbn. repeat split. apply slice_subseteq.
Qed.

(** A page number out of range is refused. *)
Lemma page_out_of_range p (n : Z) :
  ~ (1 <= n <= num_pages p) -> page p (PyInt n) = inl EmptyPage.
Proof.
  intros Hn. unfold page, validate_number. cbn [int].
  destruct (n <? 1) eqn:E1; [done|].
  destruct (n >? num_pages p) eqn:E2; [done|]. lia.
Qed.

Lemma get_page_served p (number : pyval) :
  1 <= num_pages p ->
  exists pg, get_page p number = inr pg /\
             Paginator.number pg = Spec.served (num_pages p) number /\
             paginator pg = p /\ page_objects pg ⊆ object_list p.
Proof.
  intros Hlast. unfold get_page, Spec.served, validate_number.
  destruct (int number) as [n|]; [|apply (page_in_range p 1); lia].
  destruct (n <? 1) eqn:E1; [apply (page_in_range p (num_pages p)); lia|].
  destruct (n >? num_pages p) eqn:E2; cbn [orb].
  - apply (page_in_range p (num_pages p)); lia.
  - apply (page_in_range p n); lia.
Qed.

(** Whatever [int] makes of texts, a number is read as itself. *)
Lemma page_with_number (read : string -> option Z) p (n : Z) :
  page_with read p (PyInt n) = page p (PyInt n).
Proof. reflexivity. Qed.

Lemma get_page_with_served (read : string -> option Z) p (number : pyval) :
  1 <= num_pages p ->
  exists pg, get_page_with read p number = inr pg /\
             Paginator.number pg = Spec.served_with read (num_pages p) number /\
             paginator pg = p /\ page_objects pg ⊆ object_list p.
Proof.
  intros Hlast. unfold get_page_with, Spec.served_with, validate_number_with.
  rewrite page_with_number.
  destruct (int_with read number) as [n|]; [|apply (page_in_range p 1); lia].
  destruct (n <? 1) eqn:E1; [apply (page_in_range p (num_pages p)); lia|].
  destruct (n >? num_pages p) eqn:E2; cbn [orb].
  - apply (page_in_range p (num_pages p)); lia.
  - apply (page_in_range p n); lia.
Qed.

(** The first page of a list paginated by two. *)
Lemma first_page_of_two l :
  exists pg, page (make l 2) (PyInt 1) = inr pg /\ page_objects pg = take 2 l.
Proof.
  unfold page, validate_number. cbn [int].
  pose proof (num_pages_make l 2 ltac:(lia)).
  destruct (1 >? num_pages (make l 2)) eqn:E; [lia|].
  eexists. split; [done|]. cbn [page_objects]. unfold slice, count.
  cbn [make object_list per_page orphans].
  replace ((1 - 1) * 2) with 0 by lia. rewrite drop_0.
  destruct (0 + 2 + 0 >=? Z.of_nat (length l)) eqn:E2.
  - rewrite Nat2Z.id, Nat.sub_0_r, !take_ge; [done|lia..].
  - done.
Qed.

End Pages.

(** ** The customer list *)

Import Views.

Section CustomerList.

Variable db : Database.

Lemma get_queryset_customers (request : HttpRequest) :
  customer <$> CustomersListView.get_queryset db request =
  match QueryDict_get (GET request) "search" PyNone with
  | PyStr q => if String.eqb q "" then customers db
               else filter (fun c => search_match q c) (customers db)
  | _ => customers db
  end.
Proof.
  unfold CustomersListView.get_queryset, with_total_revenue, annotate, all_customers.
  rewrite <- list_fmap_compose.
  destruct (QueryDict_get _ _ _) as [| |q]; cbn [truthy];
    try destruct (String.eqb q ""); cbn [negb]; by rewrite list_fmap_id.
Qed.

Lemma paginate_queryset_listed (request : HttpRequest) (qs : list Annotated) :
  let paginator := Paginator.make qs 2 in
  match Spec.listed (num_pages paginator) (QueryDict_get (GET request) "page" PyNone) with
  | Some n =>
      exists pg, CustomersListView.paginate_queryset request qs 2 = Returns (paginator, pg) /\
                 Paginator.page paginator (PyInt n) = inr pg /\ number pg = n
  | None => CustomersListView.paginate_queryset request qs 2 = Raises Http404
  end.
Proof.
  intros paginator. unfold Spec.listed, CustomersListView.paginate_queryset.
  fold paginator.
  set (page := py_or _ _).
  assert (forall n, 1 <= n <= num_pages paginator ->
    exists pg, (match Paginator.page paginator (PyInt n) with
                | inr pg => Returns (paginator, pg)
                | inl _ => Raises Http404
                end) = Returns (paginator, pg) /\
               Paginator.page paginator (PyInt n) = inr pg /\ number pg = n) as Hin.
  { intros n Hn.
    destruct (page_in_range paginator n) as (pg & Hpg & Hnum & _); [lia|].
    exists pg. by rewrite Hpg. }
  assert (1 <= num_pages paginator) as Hlast by (apply num_pages_make; lia).
  destruct (int page) as [n|]; cbn [Http.bind].
  - destruct ((1 <=? n) && (n <=? num_pages paginator)) eqn:E.
    + apply Hin. lia.
    + rewrite page_out_of_range; [done|lia].
  - destruct (str_eq page "last"); [|done]. cbn [Http.bind].
    apply Hin. lia.
Qed.

Lemma shown_customers_paginate (request : HttpRequest) :
  Spec.shown_customers db request =
  match CustomersListView.paginate_queryset request
          (CustomersListView.get_queryset db request) 2 with
  | Returns pr => Some (page_objects pr.2)
  | Raises _ => None
  end.
Proof.
  unfold Spec.shown_customers, CustomersListView.get, CustomersListView.get_context_data.
  change CustomersListView.paginate_by with 2.
  destruct (CustomersListView.paginate_queryset _ _ _) as [[pr pg]|e]; [|done].
  cbn [Http.bind render content fst snd]. unfold base_context, CustomersListView.context_object_name.
  by simplify_map_eq.
Qed.

(** The same two for any reading of the page parameter. *)
Lemma paginate_queryset_with_listed (read : string -> option Z)
  (request : HttpRequest) (qs : list Annotated) :
  let paginator := Paginator.make qs 2 in
  match Spec.listed_with read (num_pages paginator)
          (QueryDict_get (GET request) "page" PyNone) with
  | Some n =>
      exists pg,
        CustomersListView.paginate_queryset_with read request qs 2
          = Returns (paginator, pg) /\
        Paginator.page paginator (PyInt n) = inr pg /\ number pg = n
  | None => CustomersListView.paginate_queryset_with read request qs 2 = Raises Http404
  end.
Proof.
  intros paginator. unfold Spec.listed_with, CustomersListView.paginate_queryset_with.
  fold paginator.
  set (page := py_or _ _).
  assert (forall n, 1 <= n <= num_pages paginator ->
    exists pg, (match Paginator.page paginator (PyInt n) with
                | inr pg => Returns (paginator, pg)
                | inl _ => Raises Http404
                end) = Returns (paginator, pg) /\
               Paginator.page paginator (PyInt n) = inr pg /\ number pg = n) as Hin.
  { intros n Hn.
    destruct (page_in_range paginator n) as (pg & Hpg & Hnum & _); [lia|].
    exists pg. by rewrite Hpg. }
  assert (1 <= num_pages paginator) as Hlast by (apply num_pages_make; lia).
  destruct (int_with read page) as [n|]; cbn [Http.bind]; rewrite ?page_with_number.
  - destruct ((1 <=? n) && (n <=? num_pages paginator)) eqn:E.
    + apply Hin. lia.
    + rewrite page_out_of_range; [done|lia].
  - destruct (str_eq page "last"); [|done]. cbn [Http.bind].
    rewrite page_with_number. apply Hin. lia.
Qed.

Lemma shown_customers_with_paginate (read : string -> option Z)
  (request : HttpRequest) :
  Spec.shown_customers_with read db request =
  match CustomersListView.paginate_queryset_with read request
          (CustomersListView.get_queryset db request) 2 with
  | Returns pr => Some (page_objects pr.2)
  | Raises _ => None
  end.
Proof.
  unfold Spec.shown_customers_with, CustomersListView.get_with,
    CustomersListView.get_context_data_with.
  change CustomersListView.paginate_by with 2.
  destruct (CustomersListView.paginate_queryset_with _ _ _ _) as [[pr pg]|e]; [|done].
  cbn [Http.bind render content fst snd]. unfold base_context, CustomersListView.context_object_name.
  by simplify_map_eq.
Qed.

End CustomerList.

(** ** Revenue in the views and the exports *)

Lemma db_ok_customers (db : Database) :
  db_ok db = true -> NoDup (customer_id <$> customers db).
Proof.
  unfold db_ok, unique_keys. intros [[_ H]%andb_prop _]%andb_prop.
  by apply bool_decide_eq_true in H.
Qed.

Lemma get_customer (db : Database) (c : Customer) :
  db_ok db = true -> c ∈ customers db ->
  ORM.get (fun r => customer_id r =? customer_id c) (customers db) = Found c.
Proof.
  intros Hok Hc. unfold ORM.get.
  by rewrite filter_unique_key by (by try apply db_ok_customers).
Qed.

(** What the JSON export comes to: its rows when no customer has a
    revenue, the [TypeError] of [json.dumps] when one has. *)
Lemma export_json_outcome (db : Database) :
  ExportDataView.export_json db =
  if forallb (fun c => bool_decide (sum_revenue db c = None)) (customers db)
  then Returns
         {| status_code := 200;
            headers := [("Content-Type", "application/json");
                        ExportDataView.attachment "customers.json"];
            content :=
              JsonDump ((fun c =>
                           [("id", CInt (customer_id c));
                            ("name", CStr (customer_name c));
                            ("email", CStr (customer_email c));
                            ("phone", CStr (customer_phone c));
                            ("billing_address", CStr (customer_billing_address c));
                            ("total_revenue", CNone)]) <$> customers db) 4 |}
  else Raises TypeError.
Proof.
  unfold ExportDataView.export_json, with_total_revenue, all_customers, annotate.
  assert (forall l : list Customer,
    forallb (fun object : list (string * Cell) =>
               forallb (fun item => ExportDataView.json_encodable item.2) object)
      (ExportDataView.values
         <$> ((fun c => {| customer := c; total_revenue := sum_revenue db c |}) <$> l))
    = forallb (fun c => bool_decide (sum_revenue db c = None)) l) as Hall.
  { induction l as [|c l IH]; [done|]. rewrite !fmap_cons. cbn [forallb].
    rewrite IH. f_equal. cbn. by destruct (sum_revenue db c). }
  rewrite Hall.
  destruct (forallb _ (customers db)) eqn:E; [|done]. do 3 f_equal.
  rewrite <- list_fmap_compose. apply list_fmap_ext. intros _ c Hc%list_elem_of_lookup_2.
  rewrite forallb_forall in E. apply list_elem_of_In, E, bool_decide_eq_true in Hc.
  cbn. by rewrite Hc.
Qed.

Lemma export_rows (db : Database) :
  ExportDataView.row <$> with_total_revenue db (all_customers db)
  = (fun c =>
       [CInt (customer_id c); CStr (customer_name c); CStr (customer_email c);
        CStr (customer_phone c); CStr (customer_billing_address c);
        match sum_revenue db c with
        | None => CNone
        | Some d => CDec d
        end]) <$> customers db.
Proof.
  unfold with_total_revenue, all_customers, annotate.
  by rewrite <- list_fmap_compose.
Qed.

Lemma revenue_absent (db : Database) (c : Customer) :
  Spec.revenue db c = None <-> orders_of db c = [].
Proof. unfold Spec.revenue. by destruct (orders_of db c). Qed.

(** C1: in the customer list (queryset and page shown), in the customer
    detail view and in the rows of the CSV and XLSX exports, a customer's
    total_revenue is the sum over the customer's orders of the quantity
    times the current price of the ordered product, and is absent (not
    zero) for a customer without orders, however the page parameter of
    the list is read. The JSON export writes these
    rows, total_revenue null, only when no customer has an order: as
    soon as one has, its revenue is a decimal that [json.dumps] does not
    encode, and the export raises [TypeError] instead. *)
Theorem total_revenue_is_order_revenue (db : Database) :
  let header :=
    [CStr "id"; CStr "name"; CStr "email"; CStr "phone"; CStr "billing_address";
     CStr "total_revenue"] in
  let rows :=
    (fun c =>
       [CInt (customer_id c); CStr (customer_name c); CStr (customer_email c);
        CStr (customer_phone c); CStr (customer_billing_address c);
        match Spec.revenue db c with
        | None => CNone
        | Some d => CDec d
        end]) <$> customers db in
  db_ok db = true ->
  (forall request a,
     a ∈ CustomersListView.get_queryset db request ->
     total_revenue a = Spec.revenue db (customer a)) /\
  (forall read request rows a,
     Spec.shown_customers_with read db request = Some rows -> a ∈ rows ->
     total_revenue a = Spec.revenue db (customer a)) /\
  (forall request c,
     c ∈ customers db ->
     exists context,
       CustomerDetailView.get db request (customer_id c)
         = Returns (render CustomerDetailView.template_name context) /\
       context !! "total_revenue" = Some (CtxSum (Spec.revenue db c))) /\
  content (ExportDataView.export_csv db) = CsvRows (header :: rows) /\
  content (ExportDataView.export_xlsx db) = Worksheet "Customers" (header :: rows) /\
  ((forall c, c ∈ customers db -> orders_of db c = []) ->
     exists response,
       ExportDataView.export_json db = Returns response /\
       content response
       = JsonDump ((fun c =>
                      [("id", CInt (customer_id c));
                       ("name", CStr (customer_name c));
                       ("email", CStr (customer_email c));
                       ("phone", CStr (customer_phone c));
                       ("billing_address", CStr (customer_billing_address c));
                       ("total_revenue", CNone)]) <$> customers db) 4) /\
  ((exists c, c ∈ customers db /\ orders_of db c <> []) ->
     ExportDataView.export_json db = Raises TypeError).
Proof.
  cbv zeta. intros Hok.
  assert (forall request a, a ∈ CustomersListView.get_queryset db request ->
            total_revenue a = Spec.revenue db (customer a)) as Hqs.
  { intros request a. unfold CustomersListView.get_queryset, with_total_revenue.
    rewrite annotate_spec by done. by intros (c & -> & _)%list_elem_of_fmap. }
  assert (ExportDataView.row <$> with_total_revenue db (all_customers db)
          = (fun c =>
               [CInt (customer_id c); CStr (customer_name c); CStr (customer_email c);
                CStr (customer_phone c); CStr (customer_billing_address c);
                match Spec.revenue db c with
                | None => CNone
                | Some d => CDec d
                end]) <$> customers db) as Hrows.
  { rewrite export_rows. apply list_fmap_ext. intros _ c _.
    by rewrite sum_revenue_spec. }
  split_and!.
  - exact Hqs.
  - intros read request rows a. rewrite shown_customers_with_paginate.
    destruct (CustomersListView.paginate_queryset_with _ _ _ _)
      as [[paginator pg]|] eqn:Hp; [|done].
    intros [= <-] Ha. apply (Hqs request).
    pose proof (paginate_queryset_with_listed read request
                  (CustomersListView.get_queryset db request)) as Hl.
    cbv zeta in Hl. destruct (Spec.listed_with _ _ _); [|congruence].
    destruct Hl as (pg' & Hpg' & Hpage & _). rewrite Hp in Hpg'. simplify_eq.
    unfold page in Hpage. destruct (validate_number _ _); [done|]. simplify_eq.
    cbn in Ha |- *. revert Ha. apply slice_subseteq.
  - intros request c Hc.
    unfold CustomerDetailView.get, CustomerDetailView.get_context_data,
      CustomerDetailView.get_object, get_object_or_404, get_or_raise.
    rewrite get_customer by done. cbn [Http.bind].
    eexists. split; [done|].
    rewrite lookup_insert_eq. by rewrite aggregate_revenue_spec.
  - unfold ExportDataView.export_csv; cbn [content]. by rewrite Hrows.
  - unfold ExportDataView.export_xlsx; cbn [content]. by rewrite Hrows.
  - intros Hnone. rewrite export_json_outcome.
    assert (forallb (fun c => bool_decide (sum_revenue db c = None)) (customers db)
            = true) as ->; [|by eexists].
    apply forallb_forall. intros c Hc%list_elem_of_In.
    apply bool_decide_eq_true. rewrite sum_revenue_spec by done.
    by apply revenue_absent, Hnone.
  - intros (c & Hc & Horders). rewrite export_json_outcome.
    destruct (forallb _ (customers db)) eqn:E; [|done].
    rewrite forallb_forall in E. apply list_elem_of_In, E, bool_decide_eq_true in Hc.
    rewrite sum_revenue_spec in Hc by done. by apply revenue_absent in Hc.
Qed.

(** On the sample shop, where Ann has orders, the JSON export raises. *)
Lemma total_revenue_is_order_revenue_witness :
  db_ok Samples.shop = true /\
  ExportDataView.export_json Samples.shop = Raises TypeError.
Proof.
  split; [reflexivity|].
  apply (total_revenue_is_order_revenue Samples.shop); [reflexivity|].
  exists Samples.ann. split; [by left|discriminate].
Defined.

(** Ann's two teas at 10.00 and one mug at 5.00 make 25.00; Bob, without
    orders, has no revenue; after the tea is repriced to 12.00 the same
    orders make 29.00. *)
Example revenue_scenario :
  Spec.revenue Samples.shop Samples.ann = Some 2500 /\
  Spec.revenue Samples.shop Samples.bob = None /\
  total_revenue <$> annotate Samples.shop (customers Samples.shop)
    = [Some 2500; None; Some 2800] /\
  total_revenue <$> annotate Samples.shop_repriced (customers Samples.shop_repriced)
    = [Some 2900; None; Some 2800].
Proof. repeat split; reflexivity. Qed.

(** ** The exports *)

Lemma values_row (a : Annotated) :
  (ExportDataView.values a).*2 = ExportDataView.row a /\
  (ExportDataView.values a).*1 = ExportDataView.header.
Proof. done. Qed.

(** C2: the CSV and XLSX exports each write the whole customer table,
    one row per customer in table order, with the fields id, name,
    email, phone, billing_address, total_revenue after that header row,
    and their row sequences are the same. The JSON export agrees with
    them, its objects carrying those keys in that order, only when no
    customer has a revenue; when one has, [json.dumps] raises
    [TypeError] at the decimal and the JSON export writes nothing. *)
Theorem exports_agree (db : Database) :
  let header :=
    [CStr "id"; CStr "name"; CStr "email"; CStr "phone"; CStr "billing_address";
     CStr "total_revenue"] in
  let rows :=
    (fun c =>
       [CInt (customer_id c); CStr (customer_name c); CStr (customer_email c);
        CStr (customer_phone c); CStr (customer_billing_address c);
        match sum_revenue db c with
        | None => CNone
        | Some d => CDec d
        end]) <$> customers db in
  content (ExportDataView.export_csv db) = CsvRows (header :: rows) /\
  content (ExportDataView.export_xlsx db) = Worksheet "Customers" (header :: rows) /\
  ((forall c, c ∈ customers db -> sum_revenue db c = None) ->
     exists response data,
       ExportDataView.export_json db = Returns response /\
       content response = JsonDump data 4 /\
       (fun object => object.*2) <$> data = rows /\
       Forall (fun object =>
                 object.*1 = ["id"; "name"; "email"; "phone"; "billing_address";
                              "total_revenue"]) data) /\
  ((exists c, c ∈ customers db /\ sum_revenue db c <> None) ->
     ExportDataView.export_json db = Raises TypeError).
Proof.
  cbv zeta. split_and!.
  - unfold ExportDataView.export_csv; cbn [content]. by rewrite export_rows.
  - unfold ExportDataView.export_xlsx; cbn [content]. by rewrite export_rows.
  - intros Hnone. rewrite export_json_outcome.
    assert (forallb (fun c => bool_decide (sum_revenue db c = None)) (customers db)
            = true) as ->.
    { apply forallb_forall. intros c Hc%list_elem_of_In.
      by apply bool_decide_eq_true, Hnone. }
    do 2 eexists. split; [done|]. split; [done|]. split.
    + rewrite <- list_fmap_compose. apply list_fmap_ext.
      intros _ c Hc%list_elem_of_lookup_2. cbn. by rewrite Hnone.
    + apply Forall_fmap, Forall_forall. by intros c _.
  - intros (c & Hc & Hrevenue). rewrite export_json_outcome.
    destruct (forallb _ (customers db)) eqn:E; [|done].
    rewrite forallb_forall in E. by apply list_elem_of_In, E, bool_decide_eq_true in Hc.
Qed.

(** On the sample shop the CSV export has its header and three rows,
    the JSON export raises. *)
Lemma exports_agree_witness :
  ExportDataView.export_json Samples.shop = Raises TypeError /\
  content (ExportDataView.export_csv Samples.shop)
  = CsvRows
      [[CStr "id"; CStr "name"; CStr "email"; CStr "phone"; CStr "billing_address";
        CStr "total_revenue"];
       [CInt 1; CStr "Ann Lee"; CStr "ann@example.com"; CStr "555-0101";
        CStr "1 High St"; CDec 2500];
       [CInt 2; CStr "Bob Ray"; CStr "BOB@Example.com"; CStr "555-0102";
        CStr "2 Low Rd"; CNone];
       [CInt 3; CStr "Cy Day"; CStr "cy@example.org"; CStr "555-0103";
        CStr "3 Mid Ln"; CDec 2800]].
Proof.
  pose proof (exports_agree Samples.shop) as H. cbv zeta in H.
  destruct H as (Hcsv & _ & _ & Hjson). split.
  - apply Hjson. exists Samples.ann. split; [by left|discriminate].
  - exact Hcsv.
Defined.

(** A request for the JSON export of the sample shop ends in a 500; with
    customers but no orders the export is written. *)
Example export_json_of_shop :
  let no_orders :=
    {| products := products Samples.shop; customers := customers Samples.shop;
       orders := [] |} in
  ExportDataView.get Samples.shop (Samples.request [("format", "json")])
    = Raises TypeError /\
  response_status
    (ExportDataView.get Samples.shop (Samples.request [("format", "json")])) = 500 /\
  response_status
    (ExportDataView.get no_orders (Samples.request [("format", "json")])) = 200.
Proof. repeat split; reflexivity. Qed.

Lemma QueryDict_get_default (q : QueryDict) (key : string) (default : pyval) :
  QueryDict_get q key default =
  match QueryDict_get q key PyNone with
  | PyNone => default
  | found => found
  end.
Proof.
  induction q as [|[k v] q IH]; [done|]. cbn.
  destruct (QueryDict_get q key PyNone); try done.
  by destruct (String.eqb k key).
Qed.

Lemma QueryDict_get_str (q : QueryDict) (key : string) :
  QueryDict_get q key PyNone = PyNone \/
  exists v, QueryDict_get q key PyNone = PyStr v.
Proof.
  induction q as [|[k v] q IH]; [by left|]. cbn.
  destruct IH as [->|[w ->]]; [|by eauto].
  destruct (String.eqb k key); eauto.
Qed.

(** C3: the export view reads the format parameter; [csv], [json] and
    [xlsx] select the CSV, JSON and XLSX export, a missing parameter
    selects CSV, and every other value gets status 404 with the body
    [Bad requests]. *)
Theorem export_dispatch (db : Database) (request : HttpRequest) :
  let format := QueryDict_get (GET request) "format" PyNone in
  let response := ExportDataView.get db request in
  (format = PyNone \/ exists f, format = PyStr f) /\
  (format = PyNone -> response = Returns (ExportDataView.export_csv db)) /\
  (format = PyStr "csv" -> response = Returns (ExportDataView.export_csv db)) /\
  (format = PyStr "json" -> response = ExportDataView.export_json db) /\
  (format = PyStr "xlsx" -> response = Returns (ExportDataView.export_xlsx db)) /\
  (forall f, format = PyStr f -> f <> "csv" -> f <> "json" -> f <> "xlsx" ->
     exists r, response = Returns r /\
               status_code r = 404 /\ content r = Text "Bad requests").
Proof.
  cbv zeta. split; [apply QueryDict_get_str|].
  unfold ExportDataView.get. rewrite (QueryDict_get_default _ _ (PyStr "csv")).
  split_and!.
  - by intros ->.
  - by intros ->.
  - by intros ->.
  - by intros ->.
  - intros f -> Hcsv Hjson Hxlsx. cbn [str_eq].
    apply String.eqb_neq in Hcsv, Hjson, Hxlsx. rewrite Hcsv, Hjson, Hxlsx.
    by eexists.
Qed.

Lemma export_dispatch_witness :
  exists r,
    ExportDataView.get Samples.shop (Samples.request [("format", "xml")]) = Returns r /\
    status_code r = 404 /\ content r = Text "Bad requests".
Proof.
  pose proof (export_dispatch Samples.shop (Samples.request [("format", "xml")])) as H.
  cbv zeta in H. destruct H as (_ & _ & _ & _ & _ & H).
  apply (H "xml"); [reflexivity|discriminate..].
Defined.

Example export_dispatch_samples :
  ExportDataView.get Samples.shop (Samples.request [])
    = Returns (ExportDataView.export_csv Samples.shop) /\
  ExportDataView.get Samples.shop (Samples.request [("format", "json")])
    = ExportDataView.export_json Samples.shop /\
  response_status (ExportDataView.get Samples.shop (Samples.request [("format", "CSV")])) = 404 /\
  response_status (ExportDataView.get Samples.shop (Samples.request [("format", "")])) = 404.
Proof. repeat split; reflexivity. Qed.

(** ** Search *)

Lemma startswith_spec (s p : string) :
  startswith s p = true <-> exists after, s = p ++ after.
Proof.
  revert s. induction p as [|a p IH]; intros s; cbn.
  - split; [by exists s|done].
  - destruct s as [|b s]; [split; [done|by intros [? ?]]|].
    rewrite andb_true_iff, Ascii.eqb_eq, IH. split.
    + intros [-> [after ->]]. by exists after.
    + intros [after [= -> ->]]. eauto.
Qed.

Lemma contains_spec (hay needle : string) :
  contains hay needle = true <->
  exists before after, hay = before ++ needle ++ after.
Proof.
  induction hay as [|c hay IH]; cbn [contains];
    rewrite orb_true_iff, startswith_spec.
  - split.
    + intros [[after ->]|?]; [by exists "", after|done].
    + intros ([|? ?] & after & Heq); [left; by exists after|done].
  - rewrite IH. split.
    + intros [[after ->]|(before & after & ->)]; [by exists "", after|].
      by exists (String c before), after.
    + intros ([|c' before] & after & Heq); [left; by exists after|].
      cbn in Heq. injection Heq as -> ->. right. by exists before, after.
Qed.

(** The filter of the list view is the search of the specification. *)
Lemma search_match_spec (q : string) (c : Customer) :
  search_match q c = true <-> Spec.matches q c.
Proof.
  unfold search_match, Spec.matches, Spec.occurs_ignoring_case, icontains.
  by rewrite orb_true_iff, !contains_spec.
Qed.

Lemma first_page_shown (db : Database) (request : HttpRequest) :
  QueryDict_get (GET request) "page" PyNone = PyNone ->
  Spec.shown_customers db request
    = Some (take 2 (CustomersListView.get_queryset db request)).
Proof.
  intros Hpage. rewrite shown_customers_paginate.
  pose proof (paginate_queryset_listed request
                (CustomersListView.get_queryset db request)) as Hl.
  cbv zeta in Hl. rewrite Hpage in Hl. unfold Spec.listed in Hl.
  cbn [py_or truthy int] in Hl.
  destruct (first_page_of_two (CustomersListView.get_queryset db request))
    as (pg & Hpg & Hobjs).
  destruct ((1 <=? 1) && _) eqn:E.
  - destruct Hl as (pg' & -> & Hpg' & _). rewrite Hpg in Hpg'.
    injection Hpg' as <-. by rewrite <- Hobjs.
  - pose proof (num_pages_make (CustomersListView.get_queryset db request) 2
                  ltac:(lia)). lia.
Qed.

(** C4 (amended): for a search text that is not empty the customer list is
    made of exactly the customers whose name or email contains the text
    when case is ignored, in table order; with an empty or missing search
    parameter the list is the whole table; and the first page holds the
    first two customers of the list, or all of them when the list has
    fewer than two. *)
Theorem customer_search (db : Database) (request : HttpRequest) :
  let search := QueryDict_get (GET request) "search" PyNone in
  let queryset := CustomersListView.get_queryset db request in
  (forall q, search = PyStr q -> q <> "" ->
     (customer <$> queryset) `sublist_of` customers db /\
     forall c, c ∈ customer <$> queryset <-> c ∈ customers db /\ Spec.matches q c) /\
  (search = PyNone \/ search = PyStr "" -> customer <$> queryset = customers db) /\
  (QueryDict_get (GET request) "page" PyNone = PyNone ->
     Spec.shown_customers db request = Some (take 2 queryset) /\
     length (take 2 queryset) = Nat.min 2 (length queryset)).
Proof.
  cbv zeta. split_and!.
  - intros q Hq Hne. rewrite get_queryset_customers, Hq.
    apply String.eqb_neq in Hne as ->. split; [apply sublist_filter|].
    intros c. rewrite list_elem_of_filter, <- search_match_spec, Is_true_true. tauto.
  - rewrite get_queryset_customers. by intros [->| ->].
  - intros Hpage. split; [by apply first_page_shown|apply length_take].
Qed.

Lemma customer_search_witness :
  Samples.bob ∈ customer <$> CustomersListView.get_queryset Samples.shop
                               (Samples.request [("search", "bob@EXAMPLE")]) /\
  Spec.shown_customers Samples.shop (Samples.request [])
    = Some (take 2 (CustomersListView.get_queryset Samples.shop (Samples.request []))).
Proof.
  pose proof (customer_search Samples.shop
                (Samples.request [("search", "bob@EXAMPLE")])) as Hq.
  pose proof (customer_search Samples.shop (Samples.request [])) as Hp.
  cbv zeta in Hq, Hp. destruct Hq as (Hq & _), Hp as (_ & _ & Hp). split.
  - apply (Hq "bob@EXAMPLE"); [reflexivity|discriminate|].
    split; [apply list_elem_of_In; cbn; tauto|].
    right. by exists "", ".com".
  - apply Hp. reflexivity.
Defined.

(** C4 as stated fails on a table with a single customer: with no search
    and no page parameter the first page holds one item, not two. *)
Lemma first_page_of_single_customer :
  QueryDict_get (GET (Samples.request [])) "search" PyNone = PyNone /\
  exists rows,
    Spec.shown_customers Samples.small_shop (Samples.request []) = Some rows /\
    length rows = 1%nat /\ length rows <> 2%nat.
Proof.
  split; [reflexivity|].
  exists (annotate Samples.small_shop [Samples.ann]).
  rewrite first_page_shown by reflexivity. by split.
Qed.

(** ** The product list *)

Lemma filter_all {A} (f : A -> bool) (l : list A) :
  (forall x, x ∈ l -> f x = true) -> filter (fun x => f x) l = l.
Proof.
  induction l as [|x l IH]; intros Hall; [done|].
  rewrite filter_cons_True by (apply Is_true_true, Hall; set_solver).
  f_equal. apply IH. intros y Hy. apply Hall. set_solver.
Qed.

Lemma orders_with_product_in_all (db : Database) :
  db_ok db = true -> orders_with_product_in db (products db) = orders db.
Proof.
  intros Hok. apply filter_all. intros o Ho.
  destruct (db_ok_order db Hok o Ho) as (p & Hp & Heq).
  apply existsb_elem_of. exists p. split; [done|].
  unfold product_of_order. by apply Z.eqb_eq.
Qed.

(** C5 (amended): in the product list view both aggregates are global,
    whatever page is visible and however the page parameter is read:
    total_quantity is the sum of the ordered quantities of all products,
    that is of the whole order table, and average_price is the average
    the database engine returns for the prices of all products. Either
    is absent when there is nothing to aggregate. *)
Theorem product_list_aggregates (read : string -> option Z) (mean : list Z -> Q)
  (db : Database) (request : HttpRequest) :
  db_ok db = true ->
  exists context pg,
    ProductListTemplateView.get read mean db request
      = Returns (render ProductListTemplateView.template_name context) /\
    context !! "page_obj" = Some (CtxProductPage pg) /\
    page_objects pg ⊆ products db /\
    context !! "total_quantity" = Some (CtxSum (Spec.quantity_of_all_orders db)) /\
    context !! "average_price"
    = Some (CtxAvg match products db with
                   | [] => None
                   | _ => Some (mean (product_price <$> products db))
                   end).
Proof.
  intros Hok.
  unfold ProductListTemplateView.get, ProductListTemplateView.get_context_data.
  destruct (get_page_with_served read (Paginator.make (all_products db) 2)
              (QueryDict_get (GET request) "page" PyNone))
    as (pg & -> & _ & _ & Hsub); [apply num_pages_make; lia|].
  cbn [Http.bind]. do 2 eexists. split; [done|]. unfold base_context.
  split_and!.
  - by simplify_map_eq.
  - exact Hsub.
  - rewrite lookup_insert_ne, lookup_insert_eq by done.
    unfold all_products. rewrite orders_with_product_in_all by done.
    replace ((fun o => Some (order_quantity o)) <$> orders db)
      with (Some <$> (order_quantity <$> orders db))
      by (by rewrite <- list_fmap_compose).
    rewrite sql_sum_Some. unfold Spec.quantity_of_all_orders.
    by destruct (orders db).
  - rewrite lookup_insert_eq. unfold all_products, sql_avg.
    by destruct (products db).
Qed.

Lemma product_list_aggregates_witness :
  exists context,
    ProductListTemplateView.get int_of_str Samples.mean Samples.shop
      (Samples.request [("page", "2")])
      = Returns (render ProductListTemplateView.template_name context) /\
    context !! "total_quantity" = Some (CtxSum (Some 7)) /\
    context !! "average_price"
    = Some (CtxAvg (Some (Samples.mean [1000; 500; 700]))).
Proof.
  destruct (product_list_aggregates int_of_str Samples.mean Samples.shop
              (Samples.request [("page", "2")]))
    as (context & _ & Hget & _ & _ & Hsum & Havg); [reflexivity|].
  exists context. by split.
Defined.

(** C5 as stated fails: on the first page of the sample shop the visible
    products are the tea and the mug, whose ordered quantities add up to
    3, while total_quantity is 7, the sum over all three products. *)
Lemma total_quantity_is_not_page_scoped :
  exists context pg,
    ProductListTemplateView.get_context_data int_of_str Samples.mean Samples.shop
      (Samples.request [("page", "1")]) = Returns context /\
    context !! "page_obj" = Some (CtxProductPage pg) /\
    page_objects pg = [Samples.tea; Samples.mug] /\
    Spec.quantity_ordered_of Samples.shop (page_objects pg) = Some 3 /\
    context !! "total_quantity" = Some (CtxSum (Some 7)).
Proof.
  do 2 eexists. split; [reflexivity|].
  split; [unfold base_context; by simplify_map_eq|].
  split; [reflexivity|]. split; [reflexivity|].
  unfold base_context. by simplify_map_eq.
Qed.

(** ** Page numbers *)

Lemma list_view_get (db : Database) (request : HttpRequest) :
  match CustomersListView.paginate_queryset request
          (CustomersListView.get_queryset db request) 2 with
  | Returns _ =>
      exists response, CustomersListView.get db request = Returns response /\
                       status_code response = 200
  | Raises e => CustomersListView.get db request = Raises e
  end.
Proof.
  unfold CustomersListView.get, CustomersListView.get_context_data.
  change CustomersListView.paginate_by with 2.
  destruct (CustomersListView.paginate_queryset _ _ _); [|done].
  cbn [Http.bind]. by eexists.
Qed.

Lemma list_view_get_with (read : string -> option Z)
  (db : Database) (request : HttpRequest) :
  match CustomersListView.paginate_queryset_with read request
          (CustomersListView.get_queryset db request) 2 with
  | Returns _ =>
      exists response, CustomersListView.get_with read db request = Returns response /\
                       status_code response = 200
  | Raises e => CustomersListView.get_with read db request = Raises e
  end.
Proof.
  unfold CustomersListView.get_with, CustomersListView.get_context_data_with.
  change CustomersListView.paginate_by with 2.
  destruct (CustomersListView.paginate_queryset_with _ _ _ _); [|done].
  cbn [Http.bind]. by eexists.
Qed.

(** With the reading of ASCII texts the views for any reading are the
    views above. *)
Lemma views_read_ascii :
  index_with int_of_str = index /\
  CustomersListView.get_with int_of_str = CustomersListView.get /\
  Spec.served_with int_of_str = Spec.served /\
  Spec.listed_with int_of_str = Spec.listed /\
  Spec.shown_customers_with int_of_str = Spec.shown_customers.
Proof. repeat split; reflexivity. Qed.

(** C6 (amended): whatever [int] makes of the text of the page parameter
    and whatever average the engine returns, the product index and the
    product list never answer a page parameter with an error: they serve
    the first page when the parameter is missing or is not read as a
    number, the last page when the number read is below one or beyond
    the last page, and the page asked for otherwise. The customer list
    serves the first page when the parameter is missing or empty, the
    last page for [last] and the page asked for when the number read
    lies between one and the last page; for every other value it raises
    the 404 error. *)
Theorem page_numbers (read : string -> option Z) (mean : list Z -> Q)
  (db : Database) (request : HttpRequest) :
  let page := QueryDict_get (GET request) "page" PyNone in
  let product_pages := num_pages (Paginator.make (products db) 2) in
  let customer_pages :=
    num_pages (Paginator.make (CustomersListView.get_queryset db request) 2) in
  (exists pg,
     index_with read db request
       = Returns (render "blog/index.html" {[ "page_obj" := CtxProductPage pg ]}) /\
     number pg = Spec.served_with read product_pages page /\
     1 <= number pg <= product_pages) /\
  (exists context pg,
     ProductListTemplateView.get read mean db request
       = Returns (render ProductListTemplateView.template_name context) /\
     context !! "page_obj" = Some (CtxProductPage pg) /\
     number pg = Spec.served_with read product_pages page /\
     1 <= number pg <= product_pages) /\
  match Spec.listed_with read customer_pages page with
  | Some n =>
      1 <= n <= customer_pages /\
      exists response pg,
        CustomersListView.get_with read db request = Returns response /\
        status_code response = 200 /\
        Paginator.page (Paginator.make (CustomersListView.get_queryset db request) 2)
                       (PyInt n) = inr pg /\
        Spec.shown_customers_with read db request = Some (page_objects pg)
  | None =>
      CustomersListView.get_with read db request = Raises Http404 /\
      response_status (CustomersListView.get_with read db request) = 404
  end.
Proof.
  cbv zeta.
  assert (1 <= num_pages (Paginator.make (products db) 2)) as Hlast
    by (apply num_pages_make; lia).
  assert (forall v, 1 <= Spec.served_with read (num_pages (Paginator.make (products db) 2)) v
                    <= num_pages (Paginator.make (products db) 2)) as Hserved.
  { intros v. unfold Spec.served_with. destruct (int_with read v) as [n|]; [|lia].
    destruct (n <? 1) eqn:E1, (n >? _) eqn:E2; cbn [orb]; lia. }
  split_and!.
  - unfold index_with, all_products.
    destruct (get_page_with_served read (Paginator.make (products db) 2)
                (QueryDict_get (GET request) "page" PyNone))
      as (pg & -> & Hnum & _); [done|].
    exists pg. rewrite Hnum. by split.
  - unfold ProductListTemplateView.get, ProductListTemplateView.get_context_data,
      all_products.
    destruct (get_page_with_served read (Paginator.make (products db) 2)
                (QueryDict_get (GET request) "page" PyNone))
      as (pg & -> & Hnum & _); [done|].
    cbn [Http.bind]. do 2 eexists. split; [done|].
    split; [unfold base_context; by simplify_map_eq|]. rewrite Hnum. by split.
  - pose proof (paginate_queryset_with_listed read request
                  (CustomersListView.get_queryset db request)) as Hl.
    pose proof (list_view_get_with read db request) as Hget.
    pose proof (shown_customers_with_paginate db read request) as Hshown.
    cbv zeta in Hl.
    destruct (Spec.listed_with _ _ _) as [n|] eqn:Hn.
    + destruct Hl as (pg & Hpag & Hpage & Hnum). rewrite Hpag in Hget, Hshown.
      destruct Hget as (response & Hget & Hstatus). split.
      * unfold Spec.listed_with in Hn. destruct (int_with _ _) as [m|].
        -- destruct ((1 <=? m) && _) eqn:E; simplify_eq. lia.
        -- destruct (str_eq _ _); simplify_eq.
           pose proof (num_pages_make (CustomersListView.get_queryset db request) 2
                         ltac:(lia)). lia.
      * by exists response, pg.
    + rewrite Hl in Hget. by rewrite Hget.
Qed.

(** C6 as stated fails: the customer list answers page 0, a page that is
    not a number and a page beyond the last one with the 404 error, and
    the product index answers page 0 with the last page, which is not the
    nearest one. *)
Lemma page_zero_is_not_clamped :
  response_status (CustomersListView.get Samples.shop (Samples.request [("page", "0")])) = 404 /\
  CustomersListView.get Samples.shop (Samples.request [("page", "x")]) = Raises Http404 /\
  CustomersListView.get Samples.shop (Samples.request [("page", "9")]) = Raises Http404 /\
  exists pg,
    index Samples.shop (Samples.request [("page", "0")])
      = Returns (render "blog/index.html" {[ "page_obj" := CtxProductPage pg ]}) /\
    num_pages (paginator pg) = 2 /\ number pg = 2 /\ Spec.nearest_page 2 0 = 1.
Proof.
  split; [reflexivity|]. split; [reflexivity|]. split; [reflexivity|].
  eexists. split; [reflexivity|]. by split.
Qed.

(** ** Rows that do not exist *)

Lemma get_absent {A} (test : A -> bool) (table : list A) :
  (forall x, x ∈ table -> test x = false) -> ORM.get test table = NotFound.
Proof.
  intros Hnone. unfold ORM.get.
  assert (filter (fun x => test x) table = []) as ->; [|done].
  induction table as [|x table IH]; [done|].
  rewrite filter_cons_False; [apply IH; intros y Hy; apply Hnone; set_solver|].
  rewrite Is_true_false. apply Hnone. set_solver.
Qed.

(** C9 (amended): for a customer id that does not exist the customer
    detail view and the customer delete view answer with the standard 404
    and leave the tables as they are, while the customer update view
    raises the lookup error unhandled; for a product slug that does not
    exist the product detail view and the product update view raise the
    lookup error unhandled too. *)
Theorem lookups_of_missing_rows (db : Database) (request : HttpRequest)
  (customer_form : ModelForm Customer) (product_form : ModelForm Product) :
  (forall pk,
     (forall c, c ∈ customers db -> customer_id c <> pk) ->
     CustomerDetailView.get db request pk = Raises Http404 /\
     CustomerDeleteView.get db request pk = (db, Raises Http404) /\
     CustomerUpdateView.get db request pk = Raises (DoesNotExist "Customer") /\
     CustomerUpdateView.post customer_form db request pk
       = (db, Raises (DoesNotExist "Customer"))) /\
  (forall slug,
     (forall p, p ∈ products db -> product_slug p <> slug) ->
     ProductDetailTemplateView.get db request slug = Raises (DoesNotExist "Product") /\
     ProductUpdateView.get db request slug = Raises (DoesNotExist "Product") /\
     ProductUpdateView.post product_form db request slug
       = (db, Raises (DoesNotExist "Product"))) /\
  response_status (Raises Http404) = 404 /\
  (forall model, response_status (Raises (DoesNotExist model)) = 500).
Proof.
  split_and!; try done.
  - intros pk Hpk.
    assert (ORM.get (fun c => customer_id c =? pk) (customers db) = NotFound) as Hget.
    { apply get_absent. intros c Hc. apply Z.eqb_neq. by apply Hpk. }
    unfold CustomerDetailView.get, CustomerDetailView.get_object, get_object_or_404,
      CustomerDeleteView.get, CustomerDeleteView.delete, SingleObjectMixin_get_object,
      CustomerUpdateView.get, CustomerUpdateView.post, CustomerUpdateView.get_object,
      get_or_raise.
    by rewrite Hget.
  - intros slug Hslug.
    assert (ORM.get (fun p => String.eqb (product_slug p) slug) (products db) = NotFound)
      as Hget.
    { apply get_absent. intros p Hp. apply String.eqb_neq. by apply Hslug. }
    unfold ProductDetailTemplateView.get, ProductDetailTemplateView.get_context_data,
      ProductUpdateView.get, ProductUpdateView.post, ProductUpdateView.lookup,
      get_or_raise.
    by rewrite Hget.
Qed.

Lemma lookups_of_missing_rows_witness :
  CustomerDetailView.get Samples.shop (Samples.request []) 99 = Raises Http404 /\
  ProductUpdateView.get Samples.shop (Samples.request []) "jar"
    = Raises (DoesNotExist "Product").
Proof.
  pose proof (lookups_of_missing_rows Samples.shop (Samples.request [])
                {| is_valid := fun _ _ => true; cleaned := fun _ c => c |}
                {| is_valid := fun _ _ => true; cleaned := fun _ p => p |})
    as (Hc & Hp & _).
  split.
  - apply (Hc 99). intros c Hc'. apply list_elem_of_In in Hc'. cbn in Hc'.
    destruct Hc' as [<-|[<-|[<-|[]]]]; discriminate.
  - apply (Hp "jar"). intros p Hp'. apply list_elem_of_In in Hp'. cbn in Hp'.
    destruct Hp' as [<-|[<-|[<-|[]]]]; discriminate.
Defined.

(** C9 as stated fails: for a customer id that does not exist the delete
    view answers with the standard 404 instead of raising, and for a
    product slug that does not exist the product detail view raises the
    lookup error, which the handler turns into a 500, instead of
    answering 404. *)
Lemma delete_is_404_and_product_is_500 :
  CustomerDeleteView.get Samples.shop (Samples.request []) 99
    = (Samples.shop, Raises Http404) /\
  ProductDetailTemplateView.get Samples.shop (Samples.request []) "jar"
    = Raises (DoesNotExist "Product") /\
  response_status (ProductDetailTemplateView.get Samples.shop (Samples.request []) "jar")
    = 500.
Proof. repeat split; reflexivity. Qed.

(** ** Registration and verification *)

Import Auth.

Section AuthViews.

Context `{Collaborators}.

Lemma user_of_uidb64_valid (site : Site) (uidb64 : string) (pk : Z) (user : User) :
  user_of_uidb64 site uidb64 = Some (pk, user) <->
  exists uid, urlsafe_base64_decode uidb64 = Some uid /\
              int_of_str uid = Some pk /\ users site !! pk = Some user.
Proof.
  unfold user_of_uidb64. split.
  - intros Hu. destruct (urlsafe_base64_decode uidb64) as [uid|]; [|done].
    cbn in Hu. destruct (int_of_str uid) as [k|] eqn:Hint; [|done].
    cbn in Hu. destruct (users site !! k) as [u|] eqn:Hk; [|done].
    cbn in Hu. injection Hu as <- <-. by exists uid.
  - intros (uid & Hdec & Hint & Hk). rewrite Hdec. cbn. rewrite Hint. cbn.
    by rewrite Hk.
Qed.

(** The confirmation view on a link that is not valid. *)
Lemma verify_invalid (site : Site) (request : HttpRequest) (uidb64 token : string) :
  (forall pk user, ~ Spec.valid_link site uidb64 token pk user) ->
  VerifyEmailConfirmView_get site request uidb64 token = invalid_link site.
Proof.
  intros Hno. unfold VerifyEmailConfirmView_get.
  destruct (user_of_uidb64 site uidb64) as [[pk user]|] eqn:Hu; [|done].
  destruct (check_token pk user token) eqn:Htok; [|done].
  exfalso. apply (Hno pk user).
  apply user_of_uidb64_valid in Hu as (uid & ? & ? & ?). by exists uid.
Qed.

(** The confirmation view on a valid link. *)
Lemma verify_valid (site : Site) (request : HttpRequest) (uidb64 token : string)
  (pk : Z) (user : User) :
  Spec.valid_link site uidb64 token pk user ->
  VerifyEmailConfirmView_get site request uidb64 token
  = (set_users site (<[pk := activated user]> (users site)),
     Returns (redirect VerifyEmailConfirmView_success_url)).
Proof.
  intros (uid & Hdec & Hint & Hk & Htok). unfold VerifyEmailConfirmView_get.
  assert (user_of_uidb64 site uidb64 = Some (pk, user)) as ->
    by (apply user_of_uidb64_valid; by exists uid).
  by rewrite Htok.
Qed.

Lemma valid_link_dec (site : Site) (uidb64 token : string) :
  (exists pk user, Spec.valid_link site uidb64 token pk user) \/
  (forall pk user, ~ Spec.valid_link site uidb64 token pk user).
Proof.
  destruct (user_of_uidb64 site uidb64) as [[pk user]|] eqn:Hu.
  - destruct (check_token pk user token) eqn:Htok.
    + left. exists pk, user.
      apply user_of_uidb64_valid in Hu as (uid & ? & ? & ?). by exists uid.
    + right. intros pk' user' (uid & Hdec & Hint & Hk & Htok').
      assert (user_of_uidb64 site uidb64 = Some (pk', user')) as Hu'
        by (apply user_of_uidb64_valid; by exists uid).
      congruence.
  - right. intros pk' user' (uid & Hdec & Hint & Hk & Htok').
    assert (user_of_uidb64 site uidb64 = Some (pk', user')) as Hu'
      by (apply user_of_uidb64_valid; by exists uid).
    congruence.
Qed.

Lemma valid_link_unique (site : Site) (uidb64 token : string)
  (pk pk' : Z) (user user' : User) :
  Spec.valid_link site uidb64 token pk user ->
  Spec.valid_link site uidb64 token pk' user' -> pk = pk' /\ user = user'.
Proof.
  intros (uid & Hdec & Hint & Hk & _) (uid' & Hdec' & Hint' & Hk' & _).
  simplify_eq. done.
Qed.

End AuthViews.

Section AuthClaims.

Context `{Collaborators}.

(** C7: email verification fails closed. When the uid does not decode,
    names no user, or the token does not check out, the user table is
    left as it is and the page with the invalid-link warning is shown;
    when the link names a user and the token checks out, that user, and
    only that column of that row, is set active and the view redirects.
    So after the request a user is active exactly when it was active
    before or the link was valid for it. *)
Theorem verification_fails_closed (site : Site) (request : HttpRequest)
  (uidb64 token : string) :
  let after := (VerifyEmailConfirmView_get site request uidb64 token).1 in
  let outcome := (VerifyEmailConfirmView_get site request uidb64 token).2 in
  ((forall pk user, ~ Spec.valid_link site uidb64 token pk user) ->
     users after = users site /\
     flash after = (flash site ++ [("warning", "The link is invalid.")])%list /\
     outcome = Returns (render VerifyEmailConfirmView_template ∅)) /\
  (forall pk user,
     Spec.valid_link site uidb64 token pk user ->
     users after = <[pk := activated user]> (users site) /\
     is_active (activated user) = true /\
     flash after = flash site /\
     outcome = Returns (redirect VerifyEmailConfirmView_success_url)) /\
  (forall k,
     (exists u, users after !! k = Some u /\ is_active u = true) <->
     (exists u, users site !! k = Some u /\
                (is_active u = true \/ Spec.valid_link site uidb64 token k u))) /\
  (forall k,
     Spec.other_columns <$> users after !! k = Spec.other_columns <$> users site !! k) /\
  session_user after = session_user site /\
  outbox after = outbox site.
Proof.
  cbv zeta.
  destruct (valid_link_dec site uidb64 token) as [(pk & user & Hv)|Hno].
  - rewrite (verify_valid _ _ _ _ _ _ Hv). cbn [fst snd users flash set_users
      session_user outbox].
    pose proof Hv as (uid & _ & _ & Hk & _).
    split_and!; try done.
    + intros Hno. by destruct (Hno pk user).
    + intros pk' user' Hv'.
      by destruct (valid_link_unique _ _ _ _ _ _ _ Hv Hv') as [<- <-].
    + intros k. destruct (decide (k = pk)) as [->|Hne].
      * rewrite lookup_insert_eq. split; [intros _; exists user; by auto|].
        intros _. by exists (activated user).
      * rewrite lookup_insert_ne by done. split.
        -- intros (u & Hu & Ha). exists u. by auto.
        -- intros (u & Hu & [Ha|Hv']); [by exists u|].
           by destruct (valid_link_unique _ _ _ _ _ _ _ Hv Hv').
    + intros k. destruct (decide (k = pk)) as [->|Hne].
      * by rewrite lookup_insert_eq, Hk.
      * by rewrite lookup_insert_ne.
  - rewrite (verify_invalid _ _ _ _ Hno). cbn [fst snd invalid_link users flash
      messages_warning session_user outbox].
    split_and!; try done.
    + intros pk user Hv. by destruct (Hno pk user).
    + intros k. split; intros (u & Hu & Ha); exists u; [by auto|].
      destruct Ha as [Ha|Hv]; [done|]. by destruct (Hno k u).
Qed.

(** C8: every row the registration view writes to the user table has
    is_active false, is_staff true and is_superuser true; a valid form
    makes it write the row of the new user, whether or not the mail goes
    out, and that row stays as it is through every request to the
    confirmation endpoint whose link is not valid for that user. *)
Theorem registered_users_are_inactive_staff (site : Site) (request : HttpRequest) :
  let after := (RegisterView_post site request).1 in
  (forall k,
     users after !! k = users site !! k \/
     exists u, users after !! k = Some u /\
               is_active u = false /\ is_staff u = true /\ is_superuser u = true) /\
  (form_is_valid (users site) (POST request) = false -> users after = users site) /\
  (form_is_valid (users site) (POST request) = true ->
     let pk := (Spec.registered site request).1 in
     let user := (Spec.registered site request).2 in
     users after !! pk = Some user /\
     is_active user = false /\ is_staff user = true /\ is_superuser user = true /\
     forall request' uidb64 token,
       ~ Spec.valid_link after uidb64 token pk user ->
       users (VerifyEmailConfirmView_get after request' uidb64 token).1 !! pk
         = Some user).
Proof.
  cbv zeta. unfold RegisterView_post, Spec.registered.
  set (created := create_user _ _ _ _).
  destruct (form_is_valid _ _) eqn:Hvalid.
  - set (user := with_flags created.2 false true true).
    set (after := (if delivers _ then _ else _).1).
    assert (users after = <[created.1 := user]> (<[created.1 := created.2]> (users site)))
      as Husers by (subst after; by destruct (delivers _)).
    assert (users after !! created.1 = Some user) as Hpk
      by (by rewrite Husers, lookup_insert_eq).
    split_and!; try done.
    + intros k. destruct (decide (k = created.1)) as [->|Hne].
      * right. by exists user.
      * left. by rewrite Husers, !lookup_insert_ne.
    + intros _. cbn [fst snd]. split_and!; try done.
      intros request' uidb64 token Hno.
      destruct (valid_link_dec after uidb64 token) as [(pk' & user' & Hv)|Hnone].
      * rewrite (verify_valid _ _ _ _ _ _ Hv). cbn [fst users set_users].
        destruct (decide (pk' = created.1)) as [->|Hne].
        -- exfalso. apply Hno. pose proof Hv as (uid & _ & _ & Hk & _).
           rewrite Hpk in Hk. by injection Hk as <-.
        -- by rewrite lookup_insert_ne.
      * by rewrite (verify_invalid _ _ _ _ Hnone).
  - split_and!; try done. intros k. by left.
Qed.

(** C10: on a successful registration, that is a valid form whose
    activation mail goes out, the view logs the new user into the
    session although the row it saved has is_active false, and then
    redirects to the verification-pending page. *)
Theorem registration_logs_in (site : Site) (request : HttpRequest) :
  let after := (RegisterView_post site request).1 in
  let outcome := (RegisterView_post site request).2 in
  let pk := (Spec.registered site request).1 in
  let user := (Spec.registered site request).2 in
  let mail := activation_email pk user (cleaned_data (POST request) "email") in
  form_is_valid (users site) (POST request) = true ->
  delivers mail = true ->
  session_user after = Some pk /\
  users after !! pk = Some user /\
  is_active user = false /\
  outbox after = (outbox site ++ [mail])%list /\
  outcome = Returns (redirect "verify_email_done").
Proof.
  cbv zeta. unfold RegisterView_post, Spec.registered. cbn [fst snd].
  intros -> ->. cbn [fst snd session_user login users sent set_users outbox].
  by rewrite lookup_insert_eq.
Qed.

End AuthClaims.

(** ** The auth views in the reference environment *)

Lemma verification_fails_closed_witness :
  (exists user,
     users Samples.signed_up !! 1 = Some user /\
     users (@VerifyEmailConfirmView_get Reference.collaborators Samples.signed_up
              Reference.no_request "MQ" "1-s3cret-0").1
       = <[1 := activated user]> (users Samples.signed_up)) /\
  users (@VerifyEmailConfirmView_get Reference.collaborators Samples.signed_up
           Reference.no_request "MQ" "1-s3cret-1").1
    = users Samples.signed_up.
Proof.
  pose proof (@verification_fails_closed Reference.collaborators Samples.signed_up
                Reference.no_request "MQ" "1-s3cret-0") as Hvalid.
  pose proof (@verification_fails_closed Reference.collaborators Samples.signed_up
                Reference.no_request "MQ" "1-s3cret-1") as Hinvalid.
  cbv zeta in Hvalid, Hinvalid.
  destruct Hvalid as (_ & Hvalid & _), Hinvalid as (Hinvalid & _).
  split.
  - eexists. split; [reflexivity|].
    apply Hvalid. exists "1". repeat split; reflexivity.
  - apply Hinvalid. intros pk user (uid & Hdec & Hint & Hk & Htok).
    vm_compute in Hdec. injection Hdec as <-.
    vm_compute in Hint. injection Hint as <-.
    vm_compute in Hk. injection Hk as <-.
    vm_compute in Htok. discriminate Htok.
Defined.

Lemma registered_users_are_inactive_staff_witness :
  exists user,
    users Samples.signed_up !! 1 = Some user /\
    is_active user = false /\ is_staff user = true /\ is_superuser user = true.
Proof.
  destruct (@registered_users_are_inactive_staff Reference.collaborators
              Reference.empty_site Reference.signup) as (_ & _ & Hnew).
  cbv zeta in Hnew. destruct (Hnew eq_refl) as (Hrow & Hactive & Hstaff & Hsuper & _).
  eexists. split; [exact Hrow|]. by repeat split.
Defined.

Lemma registration_logs_in_witness :
  session_user Samples.signed_up = Some 1 /\
  (@RegisterView_post Reference.collaborators Reference.empty_site Reference.signup).2
    = Returns (redirect "verify_email_done").
Proof.
  destruct (@registration_logs_in Reference.collaborators
              Reference.empty_site Reference.signup eq_refl eq_refl)
    as (Hsession & _ & _ & _ & Hout).
  split; [exact Hsession|exact Hout].
Defined.

(** Ann signs up, is logged in while inactive, and the link of the mail
    she was sent activates her account. *)
Example sign_up_and_confirm :
  exists mail,
    outbox Samples.signed_up = [mail] /\
    session_user Samples.signed_up = Some 1 /\
    is_active <$> users Samples.signed_up !! 1 = Some false /\
    is_active <$>
      users (@VerifyEmailConfirmView_get Reference.collaborators Samples.signed_up
               Reference.no_request (body_uid mail) (body_token mail)).1 !! 1
      = Some true.
Proof. eexists. repeat split; reflexivity. Qed.

(** ** The builtins on sample inputs *)

Example int_of_str_samples :
  int_of_str " 12 " = Some 12 /\ int_of_str "-3" = Some (-3) /\
  int_of_str "1_0" = Some 10 /\ int_of_str "abc" = None /\
  int_of_str "" = None /\ int_of_str "1__0" = None /\ int_of_str "+ 3" = None.
Proof. repeat split; reflexivity. Qed.

Example QueryDict_get_samples :
  QueryDict_get [("format", "json"); ("format", "xlsx")] "format" (PyStr "csv")
    = PyStr "xlsx" /\
  QueryDict_get [("page", "2")] "format" (PyStr "csv") = PyStr "csv" /\
  QueryDict_get [("format", "")] "format" (PyStr "csv") = PyStr "".
Proof. repeat split; reflexivity. Qed.

(** Three products paginated by two: the second page holds one. *)
Example second_page_of_three :
  exists pg,
    get_page (Paginator.make (products Samples.shop) 2) (PyStr "2") = inr pg /\
    page_objects pg = [Samples.pot] /\ num_pages (paginator pg) = 2.
Proof. eexists. repeat split; reflexivity. Qed.

(** * Further properties of the views *)

(** ** Numbers written and read back *)

Lemma digit_val_pretty (d : N) :
  (d < 10)%N -> digit_val (pretty_N_char d) = Some (Z.of_N d).
Proof.
  intros Hd.
  assert (d = 0 \/ d = 1 \/ d = 2 \/ d = 3 \/ d = 4 \/ d = 5 \/ d = 6 \/ d = 7
          \/ d = 8 \/ d = 9)%N as Hcases by lia.
  repeat (destruct Hcases as [->|Hcases]; [reflexivity|]). by subst.
Qed.

Lemma digit_not_space (c : ascii) : is_Some (digit_val c) -> is_space c = false.
Proof.
  unfold digit_val, is_space. intros [d Hd].
  destruct ((48 <=? nat_of_ascii c)%nat && (nat_of_ascii c <=? 57)%nat) eqn:E;
    [|done].
  apply andb_prop in E as [H1%Nat.leb_le H2%Nat.leb_le].
  repeat match goal with
         | |- context [(?a =? ?b)%nat] => destruct (Nat.eqb_spec a b); [lia|]
         | |- context [(?a <=? ?b)%nat] => destruct (Nat.leb_spec a b); try lia
         end; done.
Qed.

Lemma lstrip_no_space (l : list ascii) :
  Forall (fun c => is_space c = false) l -> lstrip l = l.
Proof. intros [|c r Hc _]; [done|]. cbn. by rewrite Hc. Qed.

Lemma strip_no_space (l : list ascii) :
  Forall (fun c => is_space c = false) l -> strip l = l.
Proof.
  intros Hl. unfold strip. rewrite (lstrip_no_space l Hl).
  rewrite lstrip_no_space; [apply rev_involutive|].
  apply Forall_forall. intros c Hc. rewrite Forall_forall in Hl. apply Hl.
  apply list_elem_of_In. apply list_elem_of_In, in_rev in Hc. done.
Qed.

Lemma pretty_N_go_digits (x : N) (s : string) :
  Forall (fun c => is_Some (digit_val c)) (list_ascii_of_string s) ->
  Forall (fun c => is_Some (digit_val c)) (list_ascii_of_string (pretty_N_go x s)).
Proof.
  revert s. induction (N.lt_wf_0 x) as [x _ IH]. intros s Hs.
  destruct (decide (x = 0)%N) as [->|Hx]; [by rewrite pretty_N_go_0|].
  rewrite pretty_N_go_step by lia. apply IH.
  - apply N.div_lt; lia.
  - cbn. constructor; [|done].
    rewrite digit_val_pretty; [by eexists|]. by apply N.mod_lt.
Qed.

Lemma digits_pretty_N_go (x : N) (s : string) (b : bool) :
  digits 0 b (list_ascii_of_string (pretty_N_go x s)) =
  if decide (x = 0)%N then digits 0 b (list_ascii_of_string s)
  else digits (Z.of_N x) true (list_ascii_of_string s).
Proof.
  revert s. induction (N.lt_wf_0 x) as [x _ IH]. intros s.
  destruct (decide (x = 0)%N) as [->|Hx]; [by rewrite pretty_N_go_0|].
  rewrite pretty_N_go_step by lia.
  rewrite IH by (apply N.div_lt; lia).
  cbn [list_ascii_of_string digits].
  rewrite digit_val_pretty by (by apply N.mod_lt).
  pose proof (N.div_mod x 10 ltac:(done)) as Hdm.
  destruct (decide (x `div` 10 = 0)%N) as [Hq|Hq]; f_equal; lia.
Qed.

Lemma digits_no_space (l : list ascii) :
  Forall (fun c => is_Some (digit_val c)) l ->
  Forall (fun c => is_space c = false) l.
Proof. intros Hd. eapply Forall_impl; [exact Hd|]. intros c. apply digit_not_space. Qed.

Lemma int_of_str_digits (s : string) :
  Forall (fun c => is_Some (digit_val c)) (list_ascii_of_string s) ->
  int_of_str s = digits 0 false (list_ascii_of_string s).
Proof.
  intros Hd. unfold int_of_str. rewrite strip_no_space by by apply digits_no_space.
  destruct (list_ascii_of_string s) as [|c r]; [done|].
  apply Forall_cons in Hd as [[d Hd] _].
  destruct c as [[] [] [] [] [] [] [] []]; try done; by vm_compute in Hd.
Qed.

Lemma int_of_str_minus (s : string) :
  Forall (fun c => is_Some (digit_val c)) (list_ascii_of_string s) ->
  int_of_str ("-" +:+ s) = Z.opp <$> digits 0 false (list_ascii_of_string s).
Proof.
  intros Hd. unfold int_of_str. cbn [String.append list_ascii_of_string].
  rewrite strip_no_space; [done|].
  constructor; [done|by apply digits_no_space].
Qed.

Lemma digits_pretty_N (x : N) :
  Forall (fun c => is_Some (digit_val c)) (list_ascii_of_string (pretty x)) /\
  digits 0 false (list_ascii_of_string (pretty x)) = Some (Z.of_N x).
Proof.
  unfold pretty, pretty_N. destruct (decide (x = 0)%N) as [->|Hx].
  - split; [|done]. constructor; [by eexists|constructor].
  - split; [apply pretty_N_go_digits; constructor|].
    rewrite digits_pretty_N_go. by destruct (decide (x = 0)%N).
Qed.

(** [int(str(n)) == n]: a printed integer is read back as itself. *)
Lemma int_of_str_pretty (n : Z) : int_of_str (pretty n) = Some n.
Proof.
  destruct n as [|p|p].
  - done.
  - change (pretty (Z.pos p)) with (pretty (N.pos p)).
    destruct (digits_pretty_N (N.pos p)) as [Hd Hv].
    by rewrite int_of_str_digits.
  - change (pretty (Z.neg p)) with ("-" +:+ pretty (N.pos p)).
    destruct (digits_pretty_N (N.pos p)) as [Hd Hv].
    rewrite int_of_str_minus by done. by rewrite Hv.
Qed.

(** ** From registration to confirmation *)

Section AuthFlow.

Context `{Collaborators}.

Lemma register_users (site : Site) (request : HttpRequest) :
  users (RegisterView_post site request).1 =
  if form_is_valid (users site) (POST request)
  then <[(Spec.registered site request).1 := (Spec.registered site request).2]>
         (users site)
  else users site.
Proof.
  unfold RegisterView_post, Spec.registered.
  destruct (form_is_valid _ _); [|done].
  destruct (delivers _); cbn [fst snd users set_users login sent];
    by rewrite insert_insert_eq.
Qed.

(** X1: the link mailed at registration activates the account. When the
    base64 helpers give back the key they encoded and the token the
    generator made checks out, presenting the uid and token of the
    activation mail to the confirmation view sets the new user active and
    redirects to the completion page. *)
Theorem mailed_link_activates (site : Site) (request request' : HttpRequest) :
  let after := (RegisterView_post site request).1 in
  let pk := (Spec.registered site request).1 in
  let user := (Spec.registered site request).2 in
  let mail := activation_email pk user (cleaned_data (POST request) "email") in
  let confirmed :=
    VerifyEmailConfirmView_get after request' (body_uid mail) (body_token mail) in
  form_is_valid (users site) (POST request) = true ->
  delivers mail = true ->
  urlsafe_base64_decode (urlsafe_base64_encode (pretty pk)) = Some (pretty pk) ->
  check_token pk user (make_token pk user) = true ->
  outbox after = (outbox site ++ [mail])%list /\
  users confirmed.1 !! pk = Some (activated user) /\
  is_active (activated user) = true /\
  session_user confirmed.1 = Some pk /\
  confirmed.2 = Returns (redirect VerifyEmailConfirmView_success_url).
Proof.
  cbv zeta. intros Hvalid Hsent Hb64 Htoken.
  set (after := (RegisterView_post site request).1).
  set (pk := (Spec.registered site request).1) in *.
  set (user := (Spec.registered site request).2) in *.
  assert (users after !! pk = Some user) as Hrow.
  { subst after. rewrite register_users, Hvalid. apply lookup_insert_eq. }
  assert (outbox after = (outbox site ++
            [activation_email pk user (cleaned_data (POST request) "email")])%list
          /\ session_user after = Some pk) as [Hout Hsession].
  { subst after pk user. unfold RegisterView_post, Spec.registered in *.
    cbn [fst snd] in *. by rewrite Hvalid, Hsent. }
  assert (Spec.valid_link after
            (body_uid (activation_email pk user (cleaned_data (POST request) "email")))
            (body_token (activation_email pk user (cleaned_data (POST request) "email")))
            pk user) as Hlink.
  { exists (pretty pk). cbn [body_uid body_token activation_email].
    split_and!; try done. apply int_of_str_pretty. }
  rewrite (verify_valid _ _ _ _ _ _ Hlink).
  cbn [fst snd users set_users session_user].
  split_and!; try done. apply lookup_insert_eq.
Qed.

End AuthFlow.

Lemma mailed_link_activates_witness :
  is_active <$>
    users (@VerifyEmailConfirmView_get Reference.collaborators Samples.signed_up
             Reference.no_request "MQ" "1-s3cret-0").1 !! 1
  = Some true.
Proof.
  destruct (@mailed_link_activates Reference.collaborators Reference.empty_site
              Reference.signup Reference.no_request eq_refl eq_refl eq_refl eq_refl)
    as (_ & Hrow & _).
  change (users (@VerifyEmailConfirmView_get Reference.collaborators Samples.signed_up
             Reference.no_request "MQ" "1-s3cret-0").1 !! 1 = Some
             (activated (@Spec.registered Reference.collaborators
                Reference.empty_site Reference.signup).2)) in Hrow.
  by rewrite Hrow.
Defined.

(** ** Sequences of requests *)

Import Flow.

Section Sequences.

Context `{Collaborators}.

Lemma confirm_users (site : Site) (request : HttpRequest) (uidb64 token : string) :
  (exists pk user,
     Spec.valid_link site uidb64 token pk user /\
     users (VerifyEmailConfirmView_get site request uidb64 token).1
       = <[pk := activated user]> (users site)) \/
  ((forall pk user, ~ Spec.valid_link site uidb64 token pk user) /\
   users (VerifyEmailConfirmView_get site request uidb64 token).1 = users site).
Proof.
  destruct (valid_link_dec site uidb64 token) as [(pk & user & Hv)|Hno].
  - left. exists pk, user. split; [done|]. by rewrite (verify_valid _ _ _ _ _ _ Hv).
  - right. split; [done|]. by rewrite (verify_invalid _ _ _ _ Hno).
Qed.

(** What one request does to the row of user [k]: it leaves it alone,
    a registration writes an inactive staff superuser, or a valid
    confirmation sets the row active and changes nothing else of it. *)
Lemma handle_row (site : Site) (r : AuthRequest) (k : Z) :
  users (handle site r).1 !! k = users site !! k \/
  (exists request u, r = Register request /\
     users (handle site r).1 !! k = Some u /\
     is_active u = false /\ is_staff u = true /\ is_superuser u = true) \/
  (exists request uidb64 token u, r = Confirm request uidb64 token /\
     Spec.valid_link site uidb64 token k u /\
     users site !! k = Some u /\
     users (handle site r).1 !! k = Some (activated u)).
Proof.
  destruct r as [request|request uidb64 token|request]; cbn [handle].
  - rewrite register_users. destruct (form_is_valid _ _); [|by left].
    destruct (decide (k = (Spec.registered site request).1)) as [->|Hne].
    + right; left. exists request. eexists. split; [done|].
      by rewrite lookup_insert_eq.
    + left. by rewrite lookup_insert_ne.
  - destruct (confirm_users site request uidb64 token)
      as [(pk & user & Hv & ->)|[_ ->]]; [|by left].
    destruct (decide (k = pk)) as [->|Hne].
    + right; right. exists request, uidb64, token, user.
      pose proof Hv as (uid & _ & _ & Hrow & _).
      by rewrite lookup_insert_eq.
    + left. by rewrite lookup_insert_ne.
  - by left.
Qed.

(** X2: whatever sequence of registrations, confirmations and logouts
    is handled, every user of the table stays staff and superuser if
    every user was so at the start; from an empty table, therefore,
    every account that exists is a staff superuser. *)
Theorem every_user_is_staff (site : Site) (rs : list AuthRequest) :
  (forall k u, users site !! k = Some u -> is_staff u = true /\ is_superuser u = true) ->
  forall k u, users (run site rs) !! k = Some u ->
              is_staff u = true /\ is_superuser u = true.
Proof.
  revert site. induction rs as [|r rs IH]; intros site Hall; [done|].
  cbn [run]. apply IH. intros k u Hu.
  destruct (handle_row site r k)
    as [Heq|[(? & u' & _ & Hu' & _ & ? & ?)|(? & ? & ? & u' & _ & _ & Hk & Hu')]].
  - rewrite Heq in Hu. by eapply Hall.
  - rewrite Hu in Hu'. by injection Hu' as ->.
  - rewrite Hu in Hu'. injection Hu' as ->. by apply (Hall k u').
Qed.

(** X3: an account is active only through a valid link. After any
    sequence of requests, a user that is active either was active at
    the start or was named by a confirmation request of the sequence
    whose uid and token were valid for that user when it was handled. *)
Theorem active_only_by_valid_link (site : Site) (rs : list AuthRequest) (k : Z) (u : User) :
  users (run site rs) !! k = Some u -> is_active u = true ->
  (exists u0, users site !! k = Some u0 /\ is_active u0 = true) \/
  confirmed_in site rs k.
Proof.
  revert site. induction rs as [|r rs IH]; intros site Hu Hactive.
  - left. by exists u.
  - cbn [run] in Hu. cbn [confirmed_in].
    destruct (IH _ Hu Hactive) as [(u1 & Hu1 & Ha1)|Hlater]; [|by right; right].
    destruct (handle_row site r k)
      as [Heq|[(? & u' & _ & Hu' & Hina & _)|(? & ? & ? & u' & -> & Hv & _ & _)]].
    + left. exists u1. by rewrite <- Heq.
    + rewrite Hu1 in Hu'. injection Hu' as ->. congruence.
    + right; left. by exists u'.
Qed.

(** X4: confirmations and logouts never add or remove an account, never
    change an account's email, name, password, staff or superuser flag,
    and never make an active account inactive. *)
Theorem confirmations_only_activate (site : Site) (rs : list AuthRequest) (k : Z) :
  Forall (fun r => forall request, r <> Register request) rs ->
  Spec.other_columns <$> users (run site rs) !! k
    = Spec.other_columns <$> users site !! k /\
  (forall u, users site !! k = Some u -> is_active u = true ->
     exists u', users (run site rs) !! k = Some u' /\ is_active u' = true).
Proof.
  revert site. induction rs as [|r rs IH]; intros site Hrs.
  - split; [done|]. intros u Hu Ha. by exists u.
  - apply Forall_cons in Hrs as [Hr Hrs]. cbn [run].
    destruct (IH (handle site r).1 Hrs) as [Hcols Hact].
    destruct (handle_row site r k)
      as [Heq|[(request & _ & -> & _)|(? & ? & ? & u' & _ & _ & Hk & Hu')]].
    + rewrite Heq in Hcols, Hact. by split.
    + by destruct (Hr request).
    + split.
      * by rewrite Hcols, Hu', Hk.
      * intros u Hu Ha. by apply (Hact (activated u')).
Qed.

End Sequences.

Lemma every_user_is_staff_witness :
  exists u,
    users (@run Reference.collaborators Reference.empty_site sign_up_confirm_logout) !! 1
      = Some u /\
    is_staff u = true /\ is_superuser u = true.
Proof.
  eexists. split; [reflexivity|].
  apply (@every_user_is_staff Reference.collaborators Reference.empty_site
           sign_up_confirm_logout) with (k := 1); [|reflexivity].
  intros k u Hu. vm_compute in Hu. discriminate Hu.
Defined.

Lemma active_only_by_valid_link_witness :
  @confirmed_in Reference.collaborators Reference.empty_site sign_up_confirm_logout 1.
Proof.
  edestruct (@active_only_by_valid_link Reference.collaborators Reference.empty_site
               sign_up_confirm_logout 1) as [(u0 & Hu0 & _)|Hc];
    [reflexivity|reflexivity| |exact Hc].
  vm_compute in Hu0. discriminate Hu0.
Defined.

Lemma confirmations_only_activate_witness :
  Spec.other_columns <$>
    users (@run Reference.collaborators Samples.signed_up confirm_logout_retry) !! 1
  = Spec.other_columns <$> users Samples.signed_up !! 1.
Proof.
  apply (@confirmations_only_activate Reference.collaborators Samples.signed_up
           confirm_logout_retry 1).
  repeat constructor; intros request; discriminate.
Defined.

(** ** Walking through the pages *)

Section Chunks.

Context {A : Type}.
Implicit Types (l : list A).

Lemma ceil_div_covers (a b : Z) : 0 < b -> a <= ceil_div a b * b.
Proof.
  intros Hb. unfold ceil_div. pose proof (Z.mul_div_le (- a) b Hb). lia.
Qed.

Lemma ceil_div_tight (a b : Z) : 0 < b -> (ceil_div a b - 1) * b < a.
Proof.
  intros Hb. unfold ceil_div.
  pose proof (Z.mul_succ_div_gt (- a) b Hb). lia.
Qed.

(** Page [k] of a list paginated by [n] is its [k]-th run of [n]. *)
Lemma page_chunk l (n k : Z) :
  0 < n -> 1 <= k <= num_pages (Paginator.make l n) ->
  exists pg, page (Paginator.make l n) (PyInt k) = inr pg /\
             page_objects pg
             = take (Z.to_nat n) (drop (Z.to_nat ((k - 1) * n)) l).
Proof.
  intros Hn Hk. unfold page, validate_number. cbn [int].
  destruct (k <? 1) eqn:E1; [lia|].
  destruct (k >? num_pages (Paginator.make l n)) eqn:E2; [lia|].
  eexists. split; [done|]. cbn [page_objects]. unfold slice, count.
  cbn [Paginator.make object_list per_page orphans].
  assert (0 <= (k - 1) * n) as Hb by nia.
  generalize dependent ((k - 1) * n). intros bottom Hb.
  destruct (bottom + n + 0 >=? Z.of_nat (length l)) eqn:E3.
  - rewrite Nat2Z.id.
    rewrite !take_ge; [done|rewrite length_drop; lia..].
  - f_equal. lia.
Qed.

Lemma chunks_cover l (n m : nat) :
  seq 0 m ≫= (fun i => take n (drop (i * n) l)) = take (m * n) l.
Proof.
  induction m as [|m IH]; [done|].
  rewrite seq_S, bind_app, IH. cbn [mbind list_bind]. rewrite app_nil_r.
  rewrite take_take_drop. f_equal. lia.
Qed.

(** The pages of a paginator, one after the other, are its list. *)
Lemma pages_cover l (n : Z) :
  0 < n ->
  seqZ 1 (num_pages (Paginator.make l n)) ≫=
    (fun k => match page (Paginator.make l n) (PyInt k) with
              | inr pg => page_objects pg
              | inl _ => []
              end)
  = l.
Proof.
  intros Hn. pose proof (num_pages_make l n Hn) as Hlast.
  unfold seqZ. rewrite list_fmap_bind.
  rewrite (Forall_bind_ext _ (fun i => take (Z.to_nat n) (drop (i * Z.to_nat n) l))).
  - rewrite chunks_cover. apply take_ge.
    assert (Z.of_nat (length l) <= num_pages (Paginator.make l n) * n); [|nia].
    unfold num_pages. cbn [Paginator.make allow_empty_first_page orphans per_page].
    rewrite andb_false_r. unfold count. cbn [Paginator.make object_list].
    etrans; [|apply ceil_div_covers; done]. lia.
  - apply Forall_forall. intros i Hi%elem_of_seq. cbn.
    destruct (page_chunk l n (Z.of_nat i + 1) Hn ltac:(lia)) as (pg & -> & ->).
    do 2 f_equal. nia.
Qed.

End Chunks.

Lemma pretty_not_empty (k : Z) : String.eqb (pretty k) "" = false.
Proof.
  apply String.eqb_neq. intros Hk. pose proof (int_of_str_pretty k) as Hint.
  rewrite Hk in Hint. discriminate Hint.
Qed.

Lemma index_page (db : Database) (k : Z) :
  1 <= k <= num_pages (Paginator.make (products db) 2) ->
  Browse.index_products db (Browse.page_request k)
  = take 2 (drop (Z.to_nat ((k - 1) * 2)) (products db)).
Proof.
  intros Hk. unfold Browse.index_products, index, Browse.page_request, all_products.
  cbn [GET QueryDict_get String.eqb Ascii.eqb Bool.eqb].
  unfold get_page, validate_number. cbn [int]. rewrite int_of_str_pretty.
  destruct (k <? 1) eqn:E1; [lia|].
  destruct (k >? num_pages (Paginator.make (products db) 2)) eqn:E2; [lia|].
  destruct (page_chunk (products db) 2 k ltac:(lia) Hk) as (pg & -> & Hobjs).
  cbn [render content]. rewrite lookup_singleton_eq. exact Hobjs.
Qed.

(** X5: browsing the index from page 1 to the last page shows every
    product exactly once, in table order. *)
Theorem index_pages_cover (db : Database) :
  seqZ 1 (num_pages (Paginator.make (products db) 2)) ≫=
    (fun k => Browse.index_products db (Browse.page_request k))
  = products db.
Proof.
  etrans; [|apply (pages_cover (products db) 2); lia].
  apply Forall_bind_ext, Forall_forall. intros k Hk%elem_of_seqZ.
  rewrite index_page by lia.
  destruct (page_chunk (products db) 2 k ltac:(lia) ltac:(lia)) as (pg & -> & ->).
  done.
Qed.

(** X6: a page of the index never holds more than two products, every
    page before the last holds exactly two, and no page is empty unless
    the product table is. *)
Theorem index_page_sizes (db : Database) (k : Z) :
  let last := num_pages (Paginator.make (products db) 2) in
  let shown := Browse.index_products db (Browse.page_request k) in
  1 <= k <= last ->
  (length shown <= 2)%nat /\
  (k < last -> length shown = 2%nat) /\
  (products db <> [] -> (1 <= length shown)%nat).
Proof.
  cbv zeta. intros Hk. rewrite index_page by done.
  rewrite length_take, length_drop.
  assert ((num_pages (Paginator.make (products db) 2) - 1) * 2
          < Z.max 1 (Z.of_nat (length (products db)))) as Htight.
  { unfold num_pages, count.
    cbn [Paginator.make allow_empty_first_page orphans per_page object_list].
    rewrite andb_false_r, Z.sub_0_r. apply ceil_div_tight. lia. }
  split_and!; [lia|lia|].
  intros Hne. destruct (products db) as [|p ps]; [done|]. cbn [length] in *. lia.
Qed.

Lemma index_page_sizes_witness :
  length (Browse.index_products Samples.shop (Browse.page_request 1)) = 2%nat /\
  (1 <= length (Browse.index_products Samples.shop (Browse.page_request 2)))%nat.
Proof.
  split.
  - apply (index_page_sizes Samples.shop 1); [vm_compute; by split|reflexivity].
  - apply (index_page_sizes Samples.shop 2); [vm_compute; by split|discriminate].
Defined.

Lemma listed_customers_page (db : Database) (q : string) (k : Z) :
  1 <= k <= num_pages (Paginator.make (Browse.search_results db q) 2) ->
  Browse.listed_customers db (Browse.search_page_request q k)
  = take 2 (drop (Z.to_nat ((k - 1) * 2)) (Browse.search_results db q)).
Proof.
  intros Hk. unfold Browse.listed_customers.
  rewrite shown_customers_paginate.
  assert (CustomersListView.get_queryset db (Browse.search_page_request q k)
          = Browse.search_results db q) as Hqs by done.
  pose proof (paginate_queryset_listed (Browse.search_page_request q k)
                (Browse.search_results db q)) as Hl.
  cbv zeta in Hl. rewrite Hqs.
  assert (QueryDict_get (GET (Browse.search_page_request q k)) "page" PyNone
          = PyStr (pretty k)) as Hpage by reflexivity.
  rewrite Hpage in Hl. unfold Spec.listed, py_or, truthy in Hl.
  rewrite pretty_not_empty in Hl. cbn [negb int] in Hl.
  rewrite int_of_str_pretty in Hl.
  destruct ((1 <=? k) && _) eqn:E; [|lia].
  destruct Hl as (pg & -> & Hpg & _). cbn [snd default].
  destruct (page_chunk (Browse.search_results db q) 2 k ltac:(lia) Hk)
    as (pg' & Hpg' & Hobjs). rewrite Hpg in Hpg'. injection Hpg' as <-.
  exact Hobjs.
Qed.

(** X7: browsing the customer list for a search text from page 1 to
    the last page shows every customer of the search result exactly
    once, in order. *)
Theorem customer_pages_cover (db : Database) (q : string) :
  seqZ 1 (num_pages (Paginator.make (Browse.search_results db q) 2)) ≫=
    (fun k => Browse.listed_customers db (Browse.search_page_request q k))
  = Browse.search_results db q.
Proof.
  etrans; [|apply (pages_cover (Browse.search_results db q) 2); lia].
  apply Forall_bind_ext, Forall_forall. intros k Hk%elem_of_seqZ.
  rewrite listed_customers_page by lia.
  destruct (page_chunk (Browse.search_results db q) 2 k ltac:(lia) ltac:(lia))
    as (pg & -> & ->).
  done.
Qed.

(** ** The totals of the customer list *)

Lemma sql_sum_values (col : list (option Z)) :
  sql_sum col = sql_sum (Some <$> omap id col).
Proof.
  induction col as [|[x|] col IH]; [done| |done].
  cbn [sql_sum omap list_omap id fmap list_fmap]. cbn in IH. by rewrite IH.
Qed.

Lemma omap_id_app (c1 c2 : list (option Z)) :
  omap id (c1 ++ c2)%list = (omap id c1 ++ omap id c2)%list.
Proof.
  induction c1 as [|[x|] c1 IH]; [done| |done]. cbn. cbn in IH. by rewrite IH.
Qed.

Lemma sum_Permutation (l1 l2 : list Z) :
  l1 ≡ₚ l2 -> foldr Z.add 0 l1 = foldr Z.add 0 l2.
Proof. induction 1; cbn; lia. Qed.

(** Grouping the orders by customer loses and repeats no order. *)
Lemma orders_by_customer (cs : list Customer) (os : list Order) :
  NoDup (customer_id <$> cs) ->
  (forall o, o ∈ os -> order_customer_id o ∈ customer_id <$> cs) ->
  cs ≫= (fun c => filter (fun o => order_of_customer c o) os) ≡ₚ os.
Proof.
  revert os. induction cs as [|c cs IH]; intros os Hnd Hfk.
  - destruct os as [|o os]; [done|].
    specialize (Hfk o ltac:(left)). by apply elem_of_nil in Hfk.
  - rewrite fmap_cons in Hnd. apply NoDup_cons in Hnd as [Hc Hnd].
    rewrite bind_cons.
    etrans; [|apply (filter_app_complement (fun o => order_of_customer c o) os)].
    f_equiv.
    assert (cs ≫= (fun c' => filter (fun o => order_of_customer c' o) os)
            = cs ≫= (fun c' => filter (fun o => order_of_customer c' o)
                                 (filter (fun o => ~ order_of_customer c o) os)))
      as ->.
    { apply Forall_bind_ext, Forall_forall. intros c' Hc'.
      rewrite list_filter_filter. apply list_filter_iff. intros o.
      unfold order_of_customer. rewrite !Is_true_true, !Z.eqb_eq.
      split; [|tauto]. intros Ho. split; [done|]. intros Ho'.
      apply Hc. rewrite <- Ho', Ho. by apply list_elem_of_fmap_2. }
    apply IH; [done|].
    intros o [Hno Ho]%list_elem_of_filter.
    specialize (Hfk o Ho). rewrite fmap_cons in Hfk.
    apply elem_of_cons in Hfk as [Heq|Hin]; [|done].
    exfalso. apply Hno. unfold order_of_customer. by apply Is_true_true, Z.eqb_eq.
Qed.

Lemma omap_id_Some (l : list Z) : omap id (Some <$> l) = l.
Proof. induction l as [|x l IH]; [done|]. cbn. cbn in IH. by rewrite IH. Qed.

Lemma revenue_values (db : Database) (c : Customer) :
  db_ok db = true ->
  omap id ((fun r : option Z * option Z => sql_mul r.1 r.2) <$> revenue_rows db c)
  = Spec.order_revenue db <$> orders_of db c.
Proof.
  intros Hok. pose proof (orders_of_subseteq db c) as Hsub.
  unfold revenue_rows.
  assert (left_join order_of_customer (orders db) c
          = match orders_of db c with
            | [] => [(c, None)]
            | ys => (fun y => (c, Some y)) <$> ys
            end) as -> by reflexivity.
  destruct (orders_of db c) as [|o os] eqn:Hos; [reflexivity|].
  rewrite (revenue_rows_orders db Hok c (o :: os)), priced_rows by done.
  apply omap_id_Some.
Qed.

Lemma all_revenue_values (db : Database) (cs : list Customer) :
  db_ok db = true ->
  omap id ((fun r : option Z * option Z => sql_mul r.1 r.2)
           <$> (cs ≫= revenue_rows db))
  = Spec.order_revenue db <$> (cs ≫= orders_of db).
Proof.
  intros Hok. induction cs as [|c cs IH]; [done|].
  rewrite !bind_cons, !fmap_app, omap_id_app, IH. by rewrite revenue_values.
Qed.

Lemma orders_of_all_customers (db : Database) :
  db_ok db = true -> customers db ≫= orders_of db ≡ₚ orders db.
Proof.
  intros Hok. apply orders_by_customer; [by apply db_ok_customers|].
  intros o Ho. unfold db_ok in Hok. apply andb_prop in Hok as [_ Hfk].
  rewrite forallb_forall in Hfk. apply list_elem_of_In, Hfk in Ho.
  apply andb_prop in Ho as [_ Hc]. apply existsb_elem_of in Hc as (c & Hc & Heq).
  apply Z.eqb_eq in Heq as <-. by apply list_elem_of_fmap_2.
Qed.

(** X8: the two totals on the customer list are global. Whatever the
    search text and the page, total_customers is the number of all
    customers and total_revenue is the revenue of all orders of the
    database (quantity times current product price, summed), absent
    when there is no order. *)
Theorem list_totals_are_global (db : Database) (request : HttpRequest)
  (context : gmap string ctxval) :
  db_ok db = true ->
  CustomersListView.get db request
    = Returns (render CustomersListView.template_name context) ->
  context !! "total_customers" = Some (CtxInt (Z.of_nat (length (customers db)))) /\
  context !! "total_revenue"
    = Some (CtxSum (match orders db with
                    | [] => None
                    | os => Some (foldr Z.add 0 (Spec.order_revenue db <$> os))
                    end)).
Proof.
  intros Hok. unfold CustomersListView.get, CustomersListView.get_context_data.
  destruct (CustomersListView.paginate_queryset _ _ _) as [pr|]; [|done].
  cbn [Http.bind]. intros [= <-]. split.
  - by rewrite lookup_insert_ne, lookup_insert_eq.
  - rewrite lookup_insert_eq. do 2 f_equal. unfold all_customers.
    rewrite sql_sum_values, all_revenue_values, sql_sum_Some by done.
    pose proof (orders_of_all_customers db Hok) as Hperm.
    destruct (orders db) as [|o os] eqn:Hos.
    + apply Permutation_nil_r in Hperm. by rewrite Hperm.
    + rewrite (sum_Permutation _ (Spec.order_revenue db <$> o :: os))
        by (by rewrite Hperm).
      destruct (customers db ≫= orders_of db) eqn:E; [|done].
      by apply Permutation_nil_l in Hperm.
Qed.

Lemma list_totals_are_global_witness :
  Samples.bob_context !! "total_customers" = Some (CtxInt 3) /\
  Samples.bob_context !! "total_revenue" = Some (CtxSum (Some 5300)).
Proof.
  apply (list_totals_are_global Samples.shop
           (Samples.request [("search", "bob"); ("page", "1")])
           Samples.bob_context); reflexivity.
Defined.

(** ** Narrowing a search *)

Lemma append_assoc (a b c : string) : (a ++ b) ++ c = a ++ b ++ c.
Proof.
  induction a as [|x a IH]; [done|].
  change (String x ((a ++ b) ++ c) = String x (a ++ b ++ c)). by rewrite IH.
Qed.

Lemma occurs_trans (q q' field : string) :
  Spec.occurs_ignoring_case q q' -> Spec.occurs_ignoring_case q' field ->
  Spec.occurs_ignoring_case q field.
Proof.
  intros (b & a & Hq) (b' & a' & Hf). exists (b' ++ b), (a ++ a').
  rewrite Hf, Hq. by rewrite !append_assoc.
Qed.

Lemma occurs_not_empty (q q' : string) :
  Spec.occurs_ignoring_case q q' -> q <> "" -> q' <> "".
Proof.
  intros (b & a & Hq) Hne ->. cbn in Hq.
  destruct b; [|done]. destruct q; [done|]. discriminate Hq.
Qed.

(** X9: a longer search text narrows the customer list. When the text
    [q] occurs in the text [q'], case ignored, the list for [q'] is a
    sublist of the list for [q]: the same customers in the same order,
    with some left out. Two texts that differ only in case give the same
    list. *)
Theorem search_narrows (db : Database) (q q' : string) :
  q <> "" -> Spec.occurs_ignoring_case q q' ->
  Browse.search_results db q' `sublist_of` Browse.search_results db q /\
  (Spec.occurs_ignoring_case q' q ->
   Browse.search_results db q' = Browse.search_results db q).
Proof.
  intros Hq Hocc. pose proof (occurs_not_empty q q' Hocc Hq) as Hq'.
  unfold Browse.search_results, CustomersListView.get_queryset, with_total_revenue,
    annotate, all_customers.
  cbn [GET QueryDict_get String.eqb Ascii.eqb Bool.eqb truthy].
  apply String.eqb_neq in Hq as ->. apply String.eqb_neq in Hq' as ->. cbn [negb].
  assert (forall c, search_match q' c = true -> search_match q c = true) as Himp.
  { intros c. rewrite !search_match_spec.
    intros [H1|H1]; [left|right]; by eapply occurs_trans. }
  split.
  - apply fmap_sublist.
    assert (filter (fun c => search_match q' c) (customers db)
            = filter (fun c => search_match q' c)
                (filter (fun c => search_match q c) (customers db))) as ->.
    { rewrite list_filter_filter. apply list_filter_iff. intros c.
      rewrite !Is_true_true. split; [|tauto]. intros Hc. split; [done|]. by apply Himp. }
    apply sublist_filter.
  - intros Hocc'. f_equal. apply list_filter_iff. intros c.
    rewrite !Is_true_true, !search_match_spec.
    split; intros [H1|H1]; solve [left; by eapply occurs_trans
                                 |right; by eapply occurs_trans].
Qed.

Lemma search_narrows_witness :
  Browse.search_results Samples.shop "EXAMPLE.com"
    `sublist_of` Browse.search_results Samples.shop "example" /\
  Browse.search_results Samples.shop "ANN" = Browse.search_results Samples.shop "ann".
Proof.
  split.
  - apply (search_narrows Samples.shop "example" "EXAMPLE.com"); [discriminate|].
    by exists "", ".com".
  - apply (search_narrows Samples.shop "ann" "ANN"); [discriminate| |];
      by exists "", "".
Defined.

(** ** Writing rows *)

Lemma existsb_key {A} (key : A -> Z) (k : Z) (table : list A) :
  existsb (fun r => key r =? k) table = true <-> k ∈ key <$> table.
Proof.
  rewrite existsb_elem_of, list_elem_of_fmap. split.
  - intros (r & Hr & Heq%Z.eqb_eq). by exists r.
  - intros (r & -> & Hr). exists r. split; [done|]. apply Z.eqb_refl.
Qed.

(** Integrity in terms of the key columns. *)
Lemma db_ok_keys (db : Database) :
  db_ok db = true <->
  NoDup (product_id <$> products db) /\
  NoDup (customer_id <$> customers db) /\
  forall o, o ∈ orders db ->
    order_product_id o ∈ product_id <$> products db /\
    order_customer_id o ∈ customer_id <$> customers db.
Proof.
  unfold db_ok, unique_keys.
  rewrite !andb_true_iff, !bool_decide_eq_true, forallb_forall.
  split.
  - intros [[Hp Hc] Hfk]. split_and!; try done.
    intros o Ho%list_elem_of_In%Hfk.
    apply andb_prop in Ho as [H1 H2]. by rewrite <- !existsb_key.
  - intros (Hp & Hc & Hfk). split_and!; try done.
    intros o Ho%list_elem_of_In.
    destruct (Hfk o Ho) as [H1 H2]. apply andb_true_intro.
    by rewrite !existsb_key.
Qed.

Lemma db_ok_same_keys (db db' : Database) :
  product_id <$> products db' = product_id <$> products db ->
  customer_id <$> customers db' = customer_id <$> customers db ->
  orders db' = orders db ->
  db_ok db = true -> db_ok db' = true.
Proof. rewrite !db_ok_keys. by intros -> -> ->. Qed.

(** Saving a row whose key is in the table replaces the row of that key
    and keeps the key column. *)
Lemma save_row_keys {A} (key : A -> Z) (row : A) (table : list A) :
  key row ∈ key <$> table ->
  key <$> save_row key row table = key <$> table.
Proof.
  intros Hin. unfold save_row. apply existsb_key in Hin as ->.
  rewrite <- list_fmap_compose. apply list_fmap_ext. intros _ r _. cbn.
  destruct (key r =? key row) eqn:E; [|done]. by apply Z.eqb_eq in E.
Qed.

Lemma save_row_elem_of {A} (key : A -> Z) (row : A) (table : list A) :
  key row ∈ key <$> table -> row ∈ save_row key row table.
Proof.
  intros Hin. unfold save_row. pose proof Hin as ->%existsb_key.
  apply list_elem_of_fmap in Hin as (r & Heq & Hr).
  apply list_elem_of_fmap. exists r. split; [|done].
  by rewrite Heq, Z.eqb_refl.
Qed.

(** The revenue of a customer depends on the customer's key, the orders
    and the products only. *)
Lemma revenue_same_key (db db' : Database) (c c' : Customer) :
  customer_id c' = customer_id c ->
  orders db' = orders db -> products db' = products db ->
  Spec.revenue db' c' = Spec.revenue db c.
Proof.
  intros Hid Horders Hproducts.
  unfold Spec.revenue, orders_of, order_of_customer, Spec.order_revenue,
    Spec.order_product.
  by rewrite Hid, Horders, Hproducts.
Qed.

Lemma unique_by_key {A} (key : A -> Z) (table : list A) (x y : A) :
  NoDup (key <$> table) -> x ∈ table -> y ∈ table -> key x = key y -> x = y.
Proof.
  intros Hnd Hx Hy Heq.
  pose proof (filter_unique_key key table x Hnd Hx) as Hf.
  assert (y ∈ filter (fun r => key r =? key x) table) as Hin.
  { apply list_elem_of_filter. split; [|done]. apply Is_true_true, Z.eqb_eq. done. }
  rewrite Hf in Hin. by apply list_elem_of_singleton in Hin.
Qed.

Lemma save_row_elem {A} (key : A -> Z) (row x : A) (table : list A) :
  key row ∈ key <$> table -> x ∈ save_row key row table ->
  x = row \/ (x ∈ table /\ key x <> key row).
Proof.
  intros Hin. unfold save_row. apply existsb_key in Hin as ->.
  intros (r & -> & Hr)%list_elem_of_fmap.
  destruct (key r =? key row) eqn:E; [by left|right].
  split; [done|]. by apply Z.eqb_neq.
Qed.

Lemma order_product_elem (db : Database) (o : Order) (p : Product) :
  NoDup (product_id <$> products db) -> p ∈ products db ->
  product_id p = order_product_id o -> Spec.order_product db o = Some p.
Proof.
  intros Hnd Hp Hid. unfold Spec.order_product, ORM.get. rewrite <- Hid.
  by rewrite filter_unique_key.
Qed.

Lemma get_found {A} (test : A -> bool) (table : list A) (x : A) :
  ORM.get test table = Found x -> x ∈ table /\ test x = true.
Proof.
  unfold ORM.get. destruct (filter _ table) as [|y [|z l]] eqn:Hf; try done.
  intros [= ->]. assert (x ∈ filter (fun r => test r) table) as Hin
    by (rewrite Hf; by left).
  apply list_elem_of_filter in Hin as [Ht Hin]. split; [done|].
  by apply Is_true_true.
Qed.

(** X10: a valid customer update is shown by the detail page. When the
    form keeps the key, the update view saves the cleaned row in place of
    the old one, touches no other key, order or product, keeps the
    database intact and redirects to the detail page, which then shows
    the cleaned row with the total_revenue the customer had before. *)
Theorem customer_update_round_trip (form : ModelForm Customer) (db : Database)
  (request request' : HttpRequest) (c : Customer) :
  let pk := customer_id c in
  let saved := cleaned form (POST request) c in
  let result := CustomerUpdateView.post form db request pk in
  db_ok db = true -> c ∈ customers db ->
  is_valid form (POST request) c = true ->
  customer_id saved = pk ->
  result.2 = Returns (redirect (CustomerUpdateView.get_success_url pk)) /\
  db_ok result.1 = true /\
  customer_id <$> customers result.1 = customer_id <$> customers db /\
  orders result.1 = orders db /\ products result.1 = products db /\
  exists context,
    CustomerDetailView.get result.1 request' pk
      = Returns (render CustomerDetailView.template_name context) /\
    context !! "customer" = Some (CtxCustomer saved) /\
    context !! "total_revenue" = Some (CtxSum (Spec.revenue db c)).
Proof.
  cbv zeta. intros Hok Hc Hvalid Hkey.
  unfold CustomerUpdateView.post, CustomerUpdateView.get_object, get_or_raise.
  rewrite get_customer, Hvalid by done. cbn [fst snd].
  set (saved := cleaned form (POST request) c) in *.
  assert (customer_id saved ∈ customer_id <$> customers db) as Hin
    by (rewrite Hkey; by apply list_elem_of_fmap_2).
  assert (customer_id <$> customers (save_customer saved db)
          = customer_id <$> customers db) as Hkeys
    by (by apply save_row_keys).
  assert (db_ok (save_customer saved db) = true) as Hok'
    by (by apply (db_ok_same_keys db)).
  split_and!; try done.
  unfold CustomerDetailView.get, CustomerDetailView.get_context_data,
    CustomerDetailView.get_object, get_object_or_404, get_or_raise.
  rewrite <- Hkey.
  rewrite (get_customer (save_customer saved db) saved Hok')
    by (by apply save_row_elem_of).
  cbn [Http.bind]. eexists. split; [done|]. split.
  - unfold base_context, CustomerDetailView.context_object_name.
    by simplify_map_eq.
  - rewrite lookup_insert_eq, aggregate_revenue_spec by done.
    do 2 f_equal. by apply revenue_same_key.
Qed.

(** X11: a valid product update reprices the orders. When the form keeps
    the key, the update view saves the cleaned row in place of the old
    one, leaves customers and orders alone and keeps the database intact;
    from then on an order of that product is an order of the cleaned row,
    so its revenue is its quantity times the new price, and the orders of
    the other products are as before. *)
Theorem product_update_reprices (form : ModelForm Product) (db : Database)
  (request : HttpRequest) (p : Product) :
  let saved := cleaned form (POST request) p in
  let result := ProductUpdateView.post form db request (product_slug p) in
  db_ok db = true ->
  ProductUpdateView.lookup db (product_slug p) = Returns p ->
  is_valid form (POST request) p = true ->
  product_id saved = product_id p ->
  result.2 = Returns (redirect "index") /\
  db_ok result.1 = true /\
  customers result.1 = customers db /\ orders result.1 = orders db /\
  forall o, o ∈ orders db ->
    Spec.order_product result.1 o
    = if order_product_id o =? product_id p then Some saved
      else Spec.order_product db o.
Proof.
  cbv zeta. intros Hok Hlookup Hvalid Hkey.
  assert (p ∈ products db) as Hp.
  { unfold ProductUpdateView.lookup, get_or_raise in Hlookup.
    destruct (ORM.get _ _) eqn:Hget; try done. injection Hlookup as ->.
    by apply get_found in Hget as [? _]. }
  unfold ProductUpdateView.post. rewrite Hlookup, Hvalid. cbn [fst snd].
  set (saved := cleaned form (POST request) p) in *.
  assert (product_id saved ∈ product_id <$> products db) as Hin
    by (rewrite Hkey; by apply list_elem_of_fmap_2).
  assert (product_id <$> products (save_product saved db)
          = product_id <$> products db) as Hkeys
    by (by apply save_row_keys).
  assert (db_ok (save_product saved db) = true) as Hok'
    by (by apply (db_ok_same_keys db)).
  split_and!; try done.
  intros o Ho. pose proof (db_ok_products _ Hok') as Hnd'.
  destruct (order_product_id o =? product_id p) eqn:E.
  - apply Z.eqb_eq in E. apply order_product_elem; [done| |congruence].
    by apply save_row_elem_of.
  - apply Z.eqb_neq in E.
    destruct (products_of_order db Hok o Ho) as (q & Hq & Hf). rewrite Hq.
    assert (q ∈ products db /\ product_id q = order_product_id o) as [Hqin Hqid].
    { assert (q ∈ filter (fun y => product_of_order o y) (products db)) as Hin'
        by (rewrite Hf; by left).
      apply list_elem_of_filter in Hin' as [Hid ?]. split; [done|].
      unfold product_of_order in Hid. by apply Is_true_true, Z.eqb_eq in Hid. }
    apply order_product_elem; [done| |done].
    cbn [products save_product]. unfold save_row.
    pose proof Hin as ->%existsb_key. apply list_elem_of_fmap.
    exists q. split; [|done].
    destruct (product_id q =? product_id saved) eqn:E'; [|done].
    apply Z.eqb_eq in E'. congruence.
Qed.

(** X12: deleting an existing customer removes exactly that customer.
    The delete view redirects to the customer list; afterwards the
    customer's detail page and a second delete answer 404, the products
    are untouched, and every other customer is still there with the same
    total_revenue. *)
Theorem customer_delete_removes (db : Database) (request request' : HttpRequest)
  (c : Customer) :
  let pk := customer_id c in
  let result := CustomerDeleteView.get db request pk in
  db_ok db = true -> c ∈ customers db ->
  result.2 = Returns (redirect "customers") /\
  products result.1 = products db /\
  (forall r, r ∈ customers result.1 <-> r ∈ customers db /\ r <> c) /\
  CustomerDetailView.get result.1 request' pk = Raises Http404 /\
  CustomerDeleteView.get result.1 request' pk = (result.1, Raises Http404) /\
  forall c', c' ∈ customers db -> c' <> c ->
    Spec.revenue result.1 c' = Spec.revenue db c'.
Proof.
  cbv zeta. intros Hok Hc.
  pose proof (db_ok_customers db Hok) as Hnd.
  assert (CustomerDeleteView.get db request (customer_id c)
          = (delete_customer c db, Returns (redirect "customers"))) as ->.
  { unfold CustomerDeleteView.get, CustomerDeleteView.delete,
      SingleObjectMixin_get_object, get_or_raise. by rewrite get_customer. }
  cbn [fst snd].
  assert (forall r, r ∈ customers (delete_customer c db) <-> r ∈ customers db /\ r <> c)
    as Hrows.
  { intros r. cbn [customers delete_customer]. rewrite list_elem_of_filter.
    rewrite Is_true_true, negb_true_iff, Z.eqb_neq. split.
    - intros [Hne Hr]. split; [done|]. by intros ->.
    - intros [Hr Hne]. split; [|done]. intros Heq. apply Hne.
      by apply (unique_by_key customer_id (customers db)). }
  assert (ORM.get (fun r => customer_id r =? customer_id c)
            (customers (delete_customer c db)) = NotFound) as Hgone.
  { apply get_absent. intros r [Hr Hne]%Hrows. apply Z.eqb_neq. intros Heq.
    apply Hne. by apply (unique_by_key customer_id (customers db)). }
  split_and!; try done.
  - unfold CustomerDetailView.get, CustomerDetailView.get_object, get_object_or_404,
      get_or_raise. by rewrite Hgone.
  - unfold CustomerDeleteView.get, CustomerDeleteView.delete,
      SingleObjectMixin_get_object, get_or_raise. by rewrite Hgone.
  - intros c' Hc' Hne. unfold Spec.revenue, orders_of.
    assert (filter (fun o => order_of_customer c' o) (orders (delete_customer c db))
            = filter (fun o => order_of_customer c' o) (orders db)) as ->.
    { cbn [orders delete_customer]. rewrite list_filter_filter.
      apply list_filter_iff. intros o. unfold order_of_customer.
      rewrite !Is_true_true, negb_true_iff, Z.eqb_neq, !Z.eqb_eq.
      split; [tauto|]. intros Ho. split; [done|]. rewrite Ho. intros Heq.
      apply Hne. by apply (unique_by_key customer_id (customers db)). }
    done.
Qed.

Lemma customer_update_round_trip_witness :
  exists context,
    CustomerDetailView.get
      (CustomerUpdateView.post Samples.name_form Samples.shop
         (Samples.post_request [("name", "Ann Kim")]) 1).1
      (Samples.request []) 1
      = Returns (render CustomerDetailView.template_name context) /\
    context !! "total_revenue" = Some (CtxSum (Some 2500)).
Proof.
  destruct (customer_update_round_trip Samples.name_form Samples.shop
              (Samples.post_request [("name", "Ann Kim")]) (Samples.request [])
              Samples.ann)
    as (_ & _ & _ & _ & _ & context & Hget & _ & Hrev);
    [reflexivity|by left|reflexivity|reflexivity|].
  exists context. by split.
Defined.

Lemma product_update_reprices_witness :
  Spec.order_product
    (ProductUpdateView.post Samples.price_form Samples.shop
       (Samples.post_request [("price", "1200")]) "tea").1
    (Samples.order 1 1 1 2)
  = Some (cleaned Samples.price_form [("price", "1200")] Samples.tea).
Proof.
  destruct (product_update_reprices Samples.price_form Samples.shop
              (Samples.post_request [("price", "1200")]) Samples.tea)
    as (_ & _ & _ & _ & Horders);
    [reflexivity|reflexivity|reflexivity|reflexivity|].
  apply (Horders (Samples.order 1 1 1 2)). by left.
Defined.

Lemma customer_delete_removes_witness :
  CustomerDetailView.get
    (CustomerDeleteView.get Samples.shop (Samples.request []) 2).1
    (Samples.request []) 2 = Raises Http404 /\
  Spec.revenue (CustomerDeleteView.get Samples.shop (Samples.request []) 2).1
    Samples.ann = Some 2500.
Proof.
  destruct (customer_delete_removes Samples.shop (Samples.request [])
              (Samples.request []) Samples.bob)
    as (_ & _ & _ & Hdetail & _ & Hothers); [reflexivity|by right; left|].
  split; [exact Hdetail|].
  etrans; [apply (Hothers Samples.ann); [by left|discriminate]|reflexivity].
Defined.

(** ** New rows *)

Lemma save_row_new {A} (key : A -> Z) (row : A) (table : list A) :
  key row ∉ key <$> table -> save_row key row table = (table ++ [row])%list.
Proof.
  intros Hnew. unfold save_row.
  destruct (existsb _ table) eqn:E; [|done]. by apply existsb_key in E.
Qed.

Lemma db_ok_new_customer (db : Database) (c : Customer) :
  db_ok db = true -> customer_id c ∉ customer_id <$> customers db ->
  db_ok (save_customer c db) = true.
Proof.
  rewrite !db_ok_keys. intros (Hp & Hc & Hfk) Hnew.
  cbn [products customers orders save_customer]. rewrite save_row_new by done.
  rewrite fmap_app. split_and!; [done| |].
  - apply NoDup_app. split_and!; [done| |apply NoDup_singleton].
    intros k Hk Hk'%list_elem_of_singleton. by subst.
  - intros o Ho. destruct (Hfk o Ho). split; [done|]. apply elem_of_app. by left.
Qed.

Lemma db_ok_new_product (db : Database) (p : Product) :
  db_ok db = true -> product_id p ∉ product_id <$> products db ->
  db_ok (save_product p db) = true.
Proof.
  rewrite !db_ok_keys. intros (Hp & Hc & Hfk) Hnew.
  cbn [products customers orders save_product]. rewrite save_row_new by done.
  rewrite fmap_app. split_and!; [|done|].
  - apply NoDup_app. split_and!; [done| |apply NoDup_singleton].
    intros k Hk Hk'%list_elem_of_singleton. by subst.
  - intros o Ho. destruct (Hfk o Ho). split; [|done]. apply elem_of_app. by left.
Qed.

(** X13: adding a customer. A rejected form makes the view fail with an
    AttributeError instead of showing the form again, and leaves the
    database as it is. An accepted form whose row gets a new key appends
    that row, keeps the database intact and redirects to the customer
    list, which then ends with the new customer, total_revenue absent,
    after the rows it had before. *)
Theorem customer_add (form : CreateForm Customer) (db : Database)
  (request : HttpRequest) :
  let new := inserted form (POST request) (customers db) in
  let result := CustomersAddListView.post form db request in
  (accepts form (POST request) (customers db) = false ->
     result = (db, CustomersAddListView.AttributeError "object_list")) /\
  (accepts form (POST request) (customers db) = true ->
   db_ok db = true ->
   customer_id new ∉ customer_id <$> customers db ->
     result.2 = CustomersAddListView.Responded (redirect "customers") /\
     db_ok result.1 = true /\
     Browse.search_results result.1 ""
       = (Browse.search_results db ""
          ++ [{| customer := new; total_revenue := None |}])%list).
Proof.
  cbv zeta. unfold CustomersAddListView.post. split; [by intros ->|].
  intros -> Hok Hnew. cbn [fst snd]. split_and!; [done|by apply db_ok_new_customer|].
  set (new := inserted form (POST request) (customers db)) in *.
  change (Browse.search_results (save_customer new db) "")
    with ((fun c => {| customer := c; total_revenue := sum_revenue db c |})
          <$> save_row customer_id new (customers db)).
  change (Browse.search_results db "")
    with ((fun c => {| customer := c; total_revenue := sum_revenue db c |})
          <$> customers db).
  rewrite save_row_new, fmap_app by done. f_equal. cbn [fmap list_fmap]. do 2 f_equal.
  unfold sum_revenue, revenue_rows, left_join.
  assert (filter (fun y => order_of_customer new y) (orders db) = []) as ->; [|done].
  apply db_ok_keys in Hok as (_ & _ & Hfk).
  induction (orders db) as [|o os IH]; [done|].
  rewrite filter_cons_False.
  - apply IH. intros o' Ho'. apply Hfk. by right.
  - unfold order_of_customer. rewrite Is_true_true, Z.eqb_eq. intros Heq.
    apply Hnew. rewrite <- Heq. apply Hfk. by left.
Qed.

Lemma customer_add_witness :
  Browse.search_results
    (CustomersAddListView.post Samples.new_customer_form Samples.shop
       (Samples.post_request [("name", "Dee Fox"); ("email", "dee@example.com")])).1 ""
  = (Browse.search_results Samples.shop ""
     ++ [{| customer := inserted Samples.new_customer_form
                          [("name", "Dee Fox"); ("email", "dee@example.com")]
                          (customers Samples.shop);
            total_revenue := None |}])%list.
Proof.
  apply (customer_add Samples.new_customer_form Samples.shop
           (Samples.post_request [("name", "Dee Fox"); ("email", "dee@example.com")]));
    [reflexivity|reflexivity|].
  vm_compute. intros Hin%list_elem_of_In. cbn in Hin.
  destruct Hin as [?|[?|[?|[]]]]; discriminate.
Defined.

(** X14: adding a product. A rejected form is answered exactly like a
    GET of the page: the form shown is a new empty one, so neither the
    posted data nor its errors reach the template, and the database is
    left as it is. An accepted form whose row gets a new key appends that
    row, keeps the database intact and redirects to the index, whose last
    page then shows the new product. *)
Theorem product_add (form : CreateForm Product) (db : Database)
  (request : HttpRequest) :
  let new := inserted form (POST request) (products db) in
  let result := ProductAddTemplateView.post form db request in
  (accepts form (POST request) (products db) = false ->
     result = (db, ProductAddTemplateView.get db request)) /\
  (accepts form (POST request) (products db) = true ->
   db_ok db = true ->
   product_id new ∉ product_id <$> products db ->
     result.2 = Returns (redirect "index") /\
     db_ok result.1 = true /\
     products result.1 = (products db ++ [new])%list /\
     new ∈ Browse.index_products result.1
             (Browse.page_request (num_pages (Paginator.make (products result.1) 2)))).
Proof.
  cbv zeta. unfold ProductAddTemplateView.post. split.
  - intros ->. unfold ProductAddTemplateView.get. do 3 f_equal.
  - intros -> Hok Hnew. cbn [fst snd].
    set (new := inserted form (POST request) (products db)) in *.
    assert (products (save_product new db) = (products db ++ [new])%list) as Hrows
      by (by apply save_row_new).
    split_and!; [done|by apply db_ok_new_product|done|].
    set (l := products (save_product new db)) in *.
    pose proof (num_pages_make l 2 ltac:(lia)) as Hlast.
    rewrite index_page by (fold l; lia). fold l.
    assert ((num_pages (Paginator.make l 2) - 1) * 2 < Z.of_nat (length l)
            <= num_pages (Paginator.make l 2) * 2) as [Hlo Hhi].
    { unfold num_pages, count.
      cbn [Paginator.make allow_empty_first_page orphans per_page object_list].
      rewrite andb_false_r, Z.sub_0_r.
      assert (1 <= Z.of_nat (length l))
        by (rewrite Hrows, length_app; cbn; lia).
      rewrite Z.max_r by done. split; [apply ceil_div_tight|apply ceil_div_covers]; lia. }
    rewrite take_ge by (rewrite length_drop; lia).
    rewrite Hrows in Hlo |- *. rewrite length_app in Hlo. cbn [length] in Hlo.
    rewrite drop_app_le by lia. apply elem_of_app. right. by left.
Qed.

Lemma product_add_witness :
  products (ProductAddTemplateView.post Samples.new_product_form Samples.shop
              (Samples.post_request [("slug", "jar"); ("price", "900")])).1
  = (products Samples.shop
     ++ [inserted Samples.new_product_form [("slug", "jar"); ("price", "900")]
           (products Samples.shop)])%list.
Proof.
  apply (product_add Samples.new_product_form Samples.shop
           (Samples.post_request [("slug", "jar"); ("price", "900")]));
    [reflexivity|reflexivity|].
  vm_compute. intros Hin%list_elem_of_In. cbn in Hin.
  destruct Hin as [?|[?|[?|[]]]]; discriminate.
Defined.
